(** * Involute gear rack: a shallow embedding of
      [freecad/gears/involutegearrack.py]

    The development follows [InvoluteGearRack.generate_gear_shape].

    Conventions.
    - Python floats are idealised as the real numbers [R]; [np.pi] is [PI]
      and [np.tan] is [tan].
    - [app.Vector] is a record of three reals, a numpy pair [np.array([a, b])]
      is a pair of reals.  The first coordinate is the tooth-height axis, the
      second one the pitch axis.
    - A [part.Wire] is the ordered list of its edges.
    - Python exceptions are the [Raise] case of [result]; the feature object
      is threaded explicitly, so that what a build wrote before it raised
      stays visible.
    - The boundary-representation kernel (fillet between two edges, face
      extrusion, loft) is an interface: the class [GeometryKernel]. *)

From Stdlib Require Import String Reals Lra ZArith Lia List Bool.
Import ListNotations.

Open Scope R_scope.

(** ** Exceptions and results *)

Inductive exn : Type :=
| GeometricConstraintError
| AttributeError (name : string)
| IndexError
| TypeError.

Inductive result (A : Type) : Type :=
| Ok (a : A)
| Raise (e : exn).

Arguments Ok {A} a.
Arguments Raise {A} e.

Definition bind {A B : Type} (c : result A) (k : A -> result B) : result B :=
  match c with
  | Ok a => k a
  | Raise e => Raise e
  end.

Notation "x <- c ;; k" := (bind c (fun x => k))
  (at level 61, c at next level, right associativity).
Notation "' pat <- c ;; k" := (bind c (fun x => match x with pat => k end))
  (at level 61, pat pattern, c at next level, right associativity).

(** ** Python sequences *)

(** [l[i]] for an index counted from the front. *)
Definition py_get {A : Type} (l : list A) (i : nat) : result A :=
  match nth_error l i with
  | Some a => Ok a
  | None => Raise IndexError
  end.

(** [l[-k]] for [k >= 1]: the [k]-th element from the back. *)
Definition py_get_back {A : Type} (l : list A) (k : nat) : result A :=
  if (k <=? length l)%nat then py_get l (length l - k)
  else Raise IndexError.

(** [l[1:-1]]; slicing never raises. *)
Definition py_inner {A : Type} (l : list A) : list A := removelast (tl l).

(** [l[:-1]]. *)
Definition py_init {A : Type} (l : list A) : list A := removelast l.

(** [[e for e in l if e is not None]]. *)
Fixpoint drop_none {A : Type} (l : list (option A)) : list A :=
  match l with
  | [] => []
  | Some a :: l' => a :: drop_none l'
  | None :: l' => drop_none l'
  end.

(** The edge in a slot, if there is one. *)
Definition slot_edges {A : Type} (s : option A) : list A :=
  match s with
  | Some a => [a]
  | None => []
  end.

(** ** Points, vectors, edges and wires *)

(** [np.array([a, b])]. *)
Definition Pt : Type := (R * R)%type.

Definition padd (p q : Pt) : Pt := (fst p + fst q, snd p + snd q).
Definition psub (p q : Pt) : Pt := (fst p - fst q, snd p - snd q).

(** [app.Vector(x, y, z)]. *)
Record Vector : Type := vec { vx : R; vy : R; vz : R }.

Definition vadd (a b : Vector) : Vector :=
  vec (vx a + vx b) (vy a + vy b) (vz a + vz b).

(** Modelled from the spec: [fcvec] of [basegear.py], which is not among the
    sources.  It makes the kernel's vector from coordinates: a pair is a
    point of the outline's plane and gets the third coordinate 0. *)
Definition fcvec (p : Pt) : Vector := vec (fst p) (snd p) 0.

(** [fcvec] on three coordinates, as the translations of the profiles use
    it. *)
Definition fcvec3 (x y z : R) : Vector := vec x y z.

(** [v.Point[:-1]] read into a numpy pair. *)
Definition xy (v : Vector) : Pt := (vx v, vy v).

(** An edge: the straight segments the rack is drawn with, and the arcs the
    kernel's fillet puts between two of them. *)
Inductive Edge : Type :=
| Line (a b : Vector)
| Arc (a b centre : Vector).

Definition firstVertex (e : Edge) : Vector :=
  match e with Line a _ => a | Arc a _ _ => a end.

Definition lastVertex (e : Edge) : Vector :=
  match e with Line _ b => b | Arc _ b _ => b end.

Definition translate (v : Vector) (e : Edge) : Edge :=
  match e with
  | Line a b => Line (vadd a v) (vadd b v)
  | Arc a b c => Arc (vadd a v) (vadd b v) (vadd c v)
  end.

Definition Wire : Type := list Edge.

(** [wire.copy()] followed by [wire.translate(v)], and [part.Wire(w)]
    followed by [translate(v)]: a new wire, the old one is unchanged. *)
Definition translate_wire (v : Vector) (w : Wire) : Wire := map (translate v) w.

(** The vertices met along a wire: the first vertex of its first edge, then
    the last vertex of every edge. *)
Definition vertices (w : Wire) : list Vector :=
  match w with
  | [] => []
  | e :: _ => firstVertex e :: map lastVertex w
  end.

(** Every edge starts where the one before it ends. *)
Fixpoint chained (w : list Edge) : Prop :=
  match w with
  | [] => True
  | e :: w' =>
      match w' with
      | [] => True
      | e' :: _ => lastVertex e = firstVertex e' /\ chained w'
      end
  end.

(** Modelled from the spec: [points_to_wire] of [basegear.py], which is not
    among the sources.  The spec's [make_wire(point_sequence_segments)]: each
    two-point segment becomes one straight edge, in order. *)
Definition points_to_wire (segments : list (Pt * Pt)) : Wire :=
  map (fun s => Line (fcvec (fst s)) (fcvec (snd s))) segments.

(** ** The raw tooth (source lines 224-247) *)

Section RawTooth.

Variables m c h alpha : R.

(** The six points [p1 .. p6]; each is the pair [(y, x)]. *)
Definition tooth_points : Pt * Pt * Pt * Pt * Pt * Pt :=
  let x1 := - m * PI / 2 in
  let y1 := - m * (1 + c) in
  let y2 := y1 in
  let x2 := - m * PI / 4 + y2 * tan alpha in
  let y3 := m * (1 + h) in
  let x3 := - m * PI / 4 + y3 * tan alpha in
  let x4 := - x3 in
  let x5 := - x2 in
  let x6 := - x1 in
  let y4 := y3 in
  let y5 := y2 in
  let y6 := y1 in
  ((y1, x1), (y2, x2), (y3, x3), (y4, x4), (y5, x5), (y6, x6)).

(** [line1 .. line5]. *)
Definition tooth_lines : list (Pt * Pt) :=
  let '(p1, p2, p3, p4, p5, p6) := tooth_points in
  [(p1, p2); (p2, p3); (p3, p4); (p4, p5); (p5, p6)].

(** [part.Wire(points_to_wire([line1, ..., line5]))]. *)
Definition raw_tooth : Wire := points_to_wire tooth_lines.

End RawTooth.

(** ** The geometry kernel *)

(** What the builder asks of the boundary-representation kernel.  Each
    operation may raise.
    - [make_fillet e1 e2 r]: the fillet of radius [r > 0] in the corner where
      [e1] meets [e2]; it answers the shortened [e1], the fillet edge and the
      shortened [e2].
    - [extrude w v]: [part.Face(part.Wire(w)).extrude(v)].
    - [makeLoft ws solid ruled]: [part.makeLoft(ws, solid, ruled)]; the
      kernel's default for an omitted [ruled] is [False]. *)
Class GeometryKernel : Type := {
  Solid : Type;
  make_fillet : Edge -> Edge -> R -> result (Edge * Edge * Edge);
  extrude : Wire -> Vector -> result Solid;
  makeLoft : list Wire -> bool -> bool -> result Solid
}.

(** What [generate_gear_shape] returns: the 2-D outline or a solid. *)
Inductive Shape `{GeometryKernel} : Type :=
| Outline (pol : Wire)
| Body (s : Solid).

(** What the fillets of a kernel must satisfy for the filleted tooth to stay
    one connected chain: the outer ends are kept and the three edges meet. *)
Definition fillet_joins `{GeometryKernel} : Prop :=
  forall e1 e2 r a f b,
    make_fillet e1 e2 r = Ok (a, f, b) ->
    firstVertex a = firstVertex e1 /\
    lastVertex a = firstVertex f /\
    lastVertex f = firstVertex b /\
    lastVertex b = lastVertex e2.

(** ** The rack object and the feature object *)

(** [obj.rack]: the [InvoluteRack] of [pygears], kept by the feature object
    from one build to the next.  The fields are the attributes the builder
    assigns. *)
Module InvoluteRack.
Record t : Type := mk {
  m : R;
  z : Z;
  pressure_angle : R;
  thickness : R;
  beta : R;
  head : R;
  clearance : R;
  properties_from_tool : bool;
  add_endings : bool;
  simplified : bool
}.

(** Modelled from the spec: [InvoluteRack._update] of [pygears], which is
    not among the sources.  It is the recompute after which the derived
    values can be asked for; the attributes the builder assigned stay as
    they are. *)
Definition _update (r : t) : t := r.
End InvoluteRack.

(** The feature object [obj].  Lengths are in millimetres and angles in
    degrees (the [.Value] of the property).  The four properties without
    which an older document can be loaded are optional: [None] stands for a
    name that is not in [obj.PropertiesList]. *)
Module Obj.
Record t : Type := mk {
  num_teeth : Z;
  height : R;
  module : R;
  thickness : R;
  simplified : option bool;
  rack : InvoluteRack.t;
  properties_from_tool : option bool;
  helix_angle : R;
  double_helix : bool;
  transverse_pitch : R;
  add_endings : option bool;
  head : R;
  clearance : option R;
  pressure_angle : R;
  head_fillet : R;
  root_fillet : R
}.

(** [obj.rack = r] and [obj.transverse_pitch = p]. *)
Definition write (obj : t) (r : InvoluteRack.t) (p : R) : t :=
  mk (num_teeth obj) (height obj) (module obj) (thickness obj)
     (simplified obj) r (properties_from_tool obj) (helix_angle obj)
     (double_helix obj) p (add_endings obj) (head obj) (clearance obj)
     (pressure_angle obj) (head_fillet obj) (root_fillet obj).
End Obj.

(** Reading a property that the object may not have. *)
Definition getattr {A : Type} (name : string) (v : option A) : result A :=
  match v with
  | Some a => Ok a
  | None => Raise (AttributeError name)
  end.

(** [if name in obj.PropertiesList: rack.field = obj.name]. *)
Definition assign_if_present {A : Type} (v : option A) (old : A) : A :=
  match v with
  | Some a => a
  | None => old
  end.

(** The correction of module and pressure angle for the helix angle, used
    when [properties_from_tool] is set.  The spec leaves it to the gearing
    convention, so it is an interface: [tool_properties] answers the
    effective module, the normal module and the transverse pressure angle;
    [normal_module] is the normal module when the correction is off. *)
Class ToolConvention : Type := {
  tool_properties : InvoluteRack.t -> R * R * R;
  normal_module : InvoluteRack.t -> R
}.

(** Modelled from the spec: [InvoluteRack.compute_properties] of [pygears],
    which is not among the sources.  The pitch is the module times pi; with
    [properties_from_tool] off the module and the pressure angle are the
    rack's own, with it on they are the convention's. *)
Definition compute_properties `{ToolConvention} (r : InvoluteRack.t)
  : R * R * R * R :=
  let '(m, m_n, pressure_angle_t) :=
    if InvoluteRack.properties_from_tool r
    then tool_properties r
    else (InvoluteRack.m r, normal_module r, InvoluteRack.pressure_angle r) in
  let pitch := m * PI in
  (m, m_n, pitch, pressure_angle_t).

(** ** The builder *)

Section Builder.

Context {K : GeometryKernel} {T : ToolConvention}.

(** Modelled from the spec: [insert_fillet] of [basegear.py], which is not
    among the sources.  The corner between the edges at [pos] and [pos + 1]
    gets one more slot: the fillet edge when the radius is positive (the two
    edges are then replaced by the shortened ones), a [None] placeholder
    when it is not.  A fillet the kernel cannot make raises. *)
Definition insert_fillet (edges : list (option Edge)) (pos : nat) (radius : R)
  : result (list (option Edge)) :=
  e1 <- py_get edges pos ;;
  e2 <- py_get edges (pos + 1) ;;
  if Rlt_dec 0 radius then
    match e1, e2 with
    | Some e1, Some e2 =>
        '(e1, fillet, e2) <- make_fillet e1 e2 radius ;;
        Ok (firstn pos edges ++ [Some e1; Some fillet; Some e2]
              ++ skipn (pos + 2) edges)
    | _, _ => Raise TypeError
    end
  else
    Ok (firstn (pos + 1) edges ++ [None] ++ skipn (pos + 1) edges).

(** Source lines 249-253. *)
Definition fillet_tooth (m root_fillet head_fillet : R) (tooth : Wire)
  : result (list (option Edge)) :=
  let edges := map Some tooth in
  edges <- insert_fillet edges 0 (m * root_fillet) ;;
  edges <- insert_fillet edges 2 (m * head_fillet) ;;
  edges <- insert_fillet edges 4 (m * head_fillet) ;;
  insert_fillet edges 6 (m * root_fillet).

(** Source lines 256-260: the tooth unit, closed by the bridging edge. *)
Definition tooth_unit (m : R) (tooth_edges : list Edge) : result Wire :=
  e <- py_get_back tooth_edges 2 ;;
  let p_end := xy (lastVertex e) in
  e <- py_get tooth_edges 1 ;;
  let p_start := xy (firstVertex e) in
  let p_start := padd p_start (0, PI * m) in
  let edge := points_to_wire [(p_end, p_start)] in
  Ok (py_inner tooth_edges ++ edge).

(** Source lines 263-266: [n] rounds of copy, translate, append. *)
Fixpoint replicate (n : nat) (m : R) (tooth : Wire) (teeth : list Wire)
  : list Wire :=
  match n with
  | O => teeth
  | S n' =>
      let tooth := translate_wire (vec 0 (PI * m) 0) tooth in
      replicate n' m tooth (teeth ++ [tooth])
  end.

(** Source line 268: [teeth[-1] = part.Wire(teeth[-1].Edges[:-1])]. *)
Definition drop_trailing (teeth : list Wire) : result (list Wire) :=
  final <- py_get_back teeth 1 ;;
  Ok (removelast teeth ++ [py_init final]).

(** Source lines 270-274: the end caps. *)
Definition endings (add_endings : bool) (m : R) (num_teeth : Z)
    (tooth_edges : list Edge) (teeth : list Wire) : result (list Wire) :=
  if add_endings then
    first_edge <- py_get tooth_edges 0 ;;
    let teeth := [[first_edge]] ++ teeth in
    last_edge <- py_get_back tooth_edges 1 ;;
    let last_edge :=
      translate (vec 0 (PI * m * IZR (num_teeth - 1)) 0) last_edge in
    Ok (teeth ++ [[last_edge]])
  else Ok teeth.

(** Source lines 276-277: where the chain of teeth starts and ends. *)
Definition chain_ends (teeth : list Wire) : result (Pt * Pt) :=
  w <- py_get teeth 0 ;;
  e <- py_get w 0 ;;
  let p_start := xy (firstVertex e) in
  w <- py_get_back teeth 1 ;;
  e <- py_get_back w 1 ;;
  let p_end := xy (lastVertex e) in
  Ok (p_start, p_end).

(** Source lines 276-287: the base strip closes the chain of teeth. *)
Definition close_outline (thickness : R) (teeth : list Wire) : result Wire :=
  '(p_start, p_end) <- chain_ends teeth ;;
  let p_start_1 := psub p_start (thickness, 0) in
  let p_end_1 := psub p_end (thickness, 0) in
  let line6 := (p_start, p_start_1) in
  let line7 := (p_start_1, p_end_1) in
  let line8 := (p_end_1, p_end) in
  let bottom := points_to_wire [line6; line7; line8] in
  Ok (bottom ++ concat teeth).

(** Source lines 289-307. *)
Definition make_solid (height beta : R) (double_helix : bool) (pol : Wire)
  : result Shape :=
  if Req_dec_T height 0 then Ok (Outline pol)
  else if Req_dec_T beta 0 then
    s <- extrude pol (fcvec3 0 0 height) ;;
    Ok (Body s)
  else if double_helix then
    let pol2 :=
      translate_wire (fcvec3 0 (tan beta * height / 2) (height / 2)) pol in
    let pol3 := translate_wire (fcvec3 0 0 height) pol in
    s <- makeLoft [pol; pol2; pol3] true true ;;
    Ok (Body s)
  else
    let pol2 := translate_wire (fcvec3 0 (tan beta * height) height) pol in
    s <- makeLoft [pol; pol2] true false ;;
    Ok (Body s).

(** Source lines 200-215: the rack object takes the current parameters and
    is recomputed. *)
Definition update_rack (obj : Obj.t) : InvoluteRack.t :=
  let r := Obj.rack obj in
  InvoluteRack._update
    (InvoluteRack.mk
       (Obj.module obj)
       (Obj.num_teeth obj)
       (Obj.pressure_angle obj * PI / 180)
       (Obj.thickness obj)
       (Obj.helix_angle obj * PI / 180)
       (Obj.head obj)
       (assign_if_present (Obj.clearance obj) (InvoluteRack.clearance r))
       (assign_if_present (Obj.properties_from_tool obj)
          (InvoluteRack.properties_from_tool r))
       (assign_if_present (Obj.add_endings obj) (InvoluteRack.add_endings r))
       (assign_if_present (Obj.simplified obj) (InvoluteRack.simplified r))).

(** Source lines 218-247: the raw tooth of the object; [m] is the module
    [compute_properties] answered. *)
Definition tooth_profile (obj : Obj.t) (m : R) : result Wire :=
  c <- getattr "clearance" (Obj.clearance obj) ;;
  let h := Obj.head obj in
  let alpha := Obj.pressure_angle obj * PI / 180 in
  Ok (raw_tooth m c h alpha).

(** Source lines 249-255: [tooth_edges], the filleted chain. *)
Definition tooth_chain (obj : Obj.t) (m : R) : result (list Edge) :=
  let head_fillet := Obj.head_fillet obj in
  let root_fillet := Obj.root_fillet obj in
  tooth <- tooth_profile obj m ;;
  edges <- fillet_tooth m root_fillet head_fillet tooth ;;
  Ok (drop_none edges).

(** Source lines 256-266: the tooth unit and its copies. *)
Definition tiled_teeth (num_teeth : Z) (m : R) (tooth_edges : list Edge)
  : result (list Wire) :=
  tooth <- tooth_unit m tooth_edges ;;
  Ok (replicate (Z.to_nat (num_teeth - 1)) m tooth [tooth]).

(** Source lines 256-274: [teeth], the chain of wires over the base. *)
Definition rack_teeth (obj : Obj.t) (m : R) (tooth_edges : list Edge)
  : result (list Wire) :=
  teeth <- tiled_teeth (Obj.num_teeth obj) m tooth_edges ;;
  teeth <- drop_trailing teeth ;;
  add_endings <- getattr "add_endings" (Obj.add_endings obj) ;;
  endings add_endings m (Obj.num_teeth obj) tooth_edges teeth.

(** Source lines 218-287: [pol], the closed outline. *)
Definition rack_outline (obj : Obj.t) (m : R) : result Wire :=
  let t := Obj.thickness obj in
  tooth_edges <- tooth_chain obj m ;;
  teeth <- rack_teeth obj m tooth_edges ;;
  close_outline t teeth.

(** Source lines 218-307: everything after the write of
    [transverse_pitch]. *)
Definition build_shape (obj : Obj.t) (m : R) : result Shape :=
  pol <- rack_outline obj m ;;
  make_solid (Obj.height obj) (InvoluteRack.beta (Obj.rack obj))
    (Obj.double_helix obj) pol.

(** [generate_gear_shape]: the feature object after the call, and what the
    call returned or raised. *)
Definition generate_gear_shape (obj : Obj.t) : Obj.t * result Shape :=
  let rack := update_rack obj in
  let '(m, m_n, pitch, pressure_angle_t) := compute_properties rack in
  let obj := Obj.write obj rack pitch in
  (obj, build_shape obj m).

End Builder.

(** The module the build draws with: the first component of what
    [compute_properties] answers for the updated rack. *)
Definition effective_module `{ToolConvention} (obj : Obj.t) : R :=
  let '(m, _, _, _) := compute_properties (update_rack obj) in m.

(** The pitch-axis extent of a chain of teeth: from where it starts to where
    it ends, which is also the length of the base strip under it. *)
Definition pitch_extent (teeth : list Wire) : result R :=
  '(p_start, p_end) <- chain_ends teeth ;;
  Ok (snd p_end - snd p_start).

(** One corner of the tooth as [insert_fillet] treats it: the two edges
    around the corner after the call, and what fills the slot between them. *)
Definition corner `{GeometryKernel} (e1 e2 : Edge) (radius : R)
  : result (Edge * option Edge * Edge) :=
  if Rlt_dec 0 radius then
    '(a, f, b) <- make_fillet e1 e2 radius ;;
    Ok (a, Some f, b)
  else Ok (e1, None, e2).

(** The [k]-th copy of a wire in the loop: translated [k] times by one
    pitch. *)
Definition replica (k : nat) (m : R) (w : Wire) : Wire :=
  Nat.iter k (translate_wire (vec 0 (PI * m) 0)) w.

(** The bridging edge of the tooth unit (source lines 256-259). *)
Definition bridge (m : R) (e_first e_last : Edge) : Edge :=
  Line (fcvec (xy (lastVertex e_last)))
       (fcvec (padd (xy (firstVertex e_first)) (0, PI * m))).

(** Two feature objects hold the same parameters: they agree on every
    property but [rack] and [transverse_pitch]. *)
Definition same_parameters (o1 o2 : Obj.t) : Prop :=
  Obj.num_teeth o1 = Obj.num_teeth o2 /\
  Obj.height o1 = Obj.height o2 /\
  Obj.module o1 = Obj.module o2 /\
  Obj.thickness o1 = Obj.thickness o2 /\
  Obj.simplified o1 = Obj.simplified o2 /\
  Obj.properties_from_tool o1 = Obj.properties_from_tool o2 /\
  Obj.helix_angle o1 = Obj.helix_angle o2 /\
  Obj.double_helix o1 = Obj.double_helix o2 /\
  Obj.add_endings o1 = Obj.add_endings o2 /\
  Obj.head o1 = Obj.head o2 /\
  Obj.clearance o1 = Obj.clearance o2 /\
  Obj.pressure_angle o1 = Obj.pressure_angle o2 /\
  Obj.head_fillet o1 = Obj.head_fillet o2 /\
  Obj.root_fillet o1 = Obj.root_fillet o2.

(** The four optional properties are all there. *)
Definition optional_present (obj : Obj.t) : Prop :=
  Obj.clearance obj <> None /\
  Obj.properties_from_tool obj <> None /\
  Obj.add_endings obj <> None /\
  Obj.simplified obj <> None.

(** A call that changed [transverse_pitch] and nothing else. *)
Definition writes_pitch_only (before after : Obj.t) : Prop :=
  exists p, after = Obj.write before (Obj.rack before) p.

(** ** A kernel for examples *)

(** Solids are the record of the call that made them.  The fillet keeps the
    outer ends, cuts both edges half way to the corner and joins the cuts
    with an arc around the corner; it refuses a radius above [limit]. *)
Module SketchKernel.

Inductive solid : Type :=
| Prism (w : Wire) (v : Vector)
| Lofted (ws : list Wire) (solid ruled : bool).

Definition mid (a b : Vector) : Vector :=
  vec ((vx a + vx b) / 2) ((vy a + vy b) / 2) ((vz a + vz b) / 2).

Definition fillet (limit : R) (e1 e2 : Edge) (r : R)
  : result (Edge * Edge * Edge) :=
  if Rlt_dec limit r then Raise GeometricConstraintError
  else
    let a := firstVertex e1 in
    let b := lastVertex e1 in
    let c := lastVertex e2 in
    Ok (Line a (mid a b), Arc (mid a b) (mid b c) b, Line (mid b c) c).

Definition kernel (limit : R) : GeometryKernel :=
  {| Solid := solid;
     make_fillet := fillet limit;
     extrude := fun w v => Ok (Prism w v);
     makeLoft := fun ws s r => Ok (Lofted ws s r) |}.

(** The usual correction for a helical rack cut by a straight tool. *)
Definition convention : ToolConvention :=
  {| tool_properties := fun r =>
       (InvoluteRack.m r / cos (InvoluteRack.beta r),
        InvoluteRack.m r,
        atan (tan (InvoluteRack.pressure_angle r) / cos (InvoluteRack.beta r)));
     normal_module := fun r => InvoluteRack.m r * cos (InvoluteRack.beta r) |}.

(** A rack object as [InvoluteRack()] could leave it, and the feature
    object as [__init__] sets it up: 15 teeth, module 1 mm, 20 degrees. *)
Definition rack0 : InvoluteRack.t :=
  InvoluteRack.mk 5 15 (20 * PI / 180) 5 0 0 (1 / 4) false false false.

Definition obj0 : Obj.t :=
  Obj.mk 15 5 1 5 (Some false) rack0 (Some false) 0 false 0 (Some true)
    0 (Some (1 / 4)) 20 0 0.

(** A short herringbone rack: 3 teeth, 2 mm high, helix angle 45 degrees,
    rounded roots. *)
Definition herringbone : Obj.t :=
  Obj.mk 3 2 1 5 (Some false) rack0 (Some false) 45 true 0 (Some true)
    0 (Some (1 / 4)) 20 0 (1 / 10).

End SketchKernel.

(** ** Ends of wires, and edges that stay in the plane of the outline *)

(** Where a wire starts: the first vertex of its first edge. *)
Definition wire_first (w : Wire) : option Vector :=
  match w with
  | [] => None
  | e :: _ => Some (firstVertex e)
  end.

(** Where a wire ends: the last vertex of its last edge. *)
Fixpoint wire_last (w : Wire) : option Vector :=
  match w with
  | [] => None
  | e :: w' =>
      match w' with
      | [] => Some (lastVertex e)
      | _ :: _ => wire_last w'
      end
  end.

(** Both ends of the edge have the third coordinate 0. *)
Definition in_plane (e : Edge) : Prop :=
  vz (firstVertex e) = 0 /\ vz (lastVertex e) = 0.

(** A kernel whose fillets between edges of the plane stay in the plane. *)
Definition fillet_planar `{GeometryKernel} : Prop :=
  forall e1 e2 r a f b,
    make_fillet e1 e2 r = Ok (a, f, b) ->
    in_plane e1 -> in_plane e2 ->
    in_plane a /\ in_plane f /\ in_plane b.

(** The point at the fraction [t] of the way from [p] to [q]. *)
Definition along (p q : Pt) (t : R) : Pt :=
  (fst p + t * (fst q - fst p), snd p + t * (snd q - snd p)).

(** The mirror image of a point in the centre line of the tooth. *)
Definition mirror (p : Pt) : Pt := (fst p, - snd p).

(** ** Objects that differ in one property *)

Definition with_properties_from_tool (obj : Obj.t) (v : option bool) : Obj.t :=
  Obj.mk (Obj.num_teeth obj) (Obj.height obj) (Obj.module obj)
    (Obj.thickness obj) (Obj.simplified obj) (Obj.rack obj) v
    (Obj.helix_angle obj) (Obj.double_helix obj) (Obj.transverse_pitch obj)
    (Obj.add_endings obj) (Obj.head obj) (Obj.clearance obj)
    (Obj.pressure_angle obj) (Obj.head_fillet obj) (Obj.root_fillet obj).

Definition with_simplified (obj : Obj.t) (v : option bool) : Obj.t :=
  Obj.mk (Obj.num_teeth obj) (Obj.height obj) (Obj.module obj)
    (Obj.thickness obj) v (Obj.rack obj) (Obj.properties_from_tool obj)
    (Obj.helix_angle obj) (Obj.double_helix obj) (Obj.transverse_pitch obj)
    (Obj.add_endings obj) (Obj.head obj) (Obj.clearance obj)
    (Obj.pressure_angle obj) (Obj.head_fillet obj) (Obj.root_fillet obj).

Definition with_helix_angle (obj : Obj.t) (a : R) : Obj.t :=
  Obj.mk (Obj.num_teeth obj) (Obj.height obj) (Obj.module obj)
    (Obj.thickness obj) (Obj.simplified obj) (Obj.rack obj)
    (Obj.properties_from_tool obj) a (Obj.double_helix obj)
    (Obj.transverse_pitch obj) (Obj.add_endings obj) (Obj.head obj)
    (Obj.clearance obj) (Obj.pressure_angle obj) (Obj.head_fillet obj)
    (Obj.root_fillet obj).

Definition with_clearance (obj : Obj.t) (v : option R) : Obj.t :=
  Obj.mk (Obj.num_teeth obj) (Obj.height obj) (Obj.module obj)
    (Obj.thickness obj) (Obj.simplified obj) (Obj.rack obj)
    (Obj.properties_from_tool obj) (Obj.helix_angle obj)
    (Obj.double_helix obj) (Obj.transverse_pitch obj) (Obj.add_endings obj)
    (Obj.head obj) v (Obj.pressure_angle obj) (Obj.head_fillet obj)
    (Obj.root_fillet obj).

Definition with_add_endings (obj : Obj.t) (v : option bool) : Obj.t :=
  Obj.mk (Obj.num_teeth obj) (Obj.height obj) (Obj.module obj)
    (Obj.thickness obj) (Obj.simplified obj) (Obj.rack obj)
    (Obj.properties_from_tool obj) (Obj.helix_angle obj)
    (Obj.double_helix obj) (Obj.transverse_pitch obj) v (Obj.head obj)
    (Obj.clearance obj) (Obj.pressure_angle obj) (Obj.head_fillet obj)
    (Obj.root_fillet obj).

(** ** Loading an older document (source lines 96-110) *)

Module Restore.

(** What [onDocumentRestored] looks at in the stored object: the old
    property [beta] and the property [helix_angle], each of them there or
    not; [others] is everything else the object holds. *)
Record t (O : Type) : Type := mk {
  beta : option R;
  helix_angle : option R;
  others : O
}.

Arguments mk {O} beta helix_angle others.
Arguments beta {O} t.
Arguments helix_angle {O} t.
Arguments others {O} t.

(** [obj.addProperty("App::PropertyAngle", "helix_angle", ...)]: the new
    property starts at 0.  The host does not add a property under a name
    that is taken; [None] stands for that refusal. *)
Definition addProperty_helix_angle {O : Type} (obj : t O) : option (t O) :=
  match helix_angle obj with
  | None => Some (mk (beta obj) (Some 0) (others obj))
  | Some _ => None
  end.

(** [obj.helix_angle = v]. *)
Definition set_helix_angle {O : Type} (obj : t O) (v : R) : t O :=
  mk (beta obj) (Some v) (others obj).

(** [obj.removeProperty("beta")]. *)
Definition removeProperty_beta {O : Type} (obj : t O) : t O :=
  mk None (helix_angle obj) (others obj).

Definition onDocumentRestored {O : Type} (obj : t O) : option (t O) :=
  match beta obj with
  | Some helix_angle_value =>
      match addProperty_helix_angle obj with
      | Some obj =>
          let obj := set_helix_angle obj helix_angle_value in
          Some (removeProperty_beta obj)
      | None => None
      end
  | None => Some obj
  end.

End Restore.

(** ** More objects for examples *)

Module Examples.

(** The default object as an older document would hold it, without one of
    the later properties. *)
Definition no_clearance : Obj.t := with_clearance SketchKernel.obj0 None.
Definition no_add_endings : Obj.t := with_add_endings SketchKernel.obj0 None.
Definition no_properties_from_tool : Obj.t :=
  with_properties_from_tool SketchKernel.obj0 None.

(** A stored object of an older document, with a helix angle of 15 degrees
    under the old name. *)
Definition old_document : Restore.t unit := Restore.mk (Some 15) None tt.

(** A helical rack cut with [properties_from_tool] on: module 1 mm, helix
    angle 60 degrees, 3 teeth, end caps, no fillets. *)
Definition tool_on : Obj.t :=
  Obj.mk 3 2 1 5 (Some false) SketchKernel.rack0 (Some true) 60 false 0
    (Some true) 0 (Some (1 / 4)) 20 0 0.

(** The same rack with rounded roots, factor 1/10. *)
Definition tool_on_filleted : Obj.t :=
  Obj.mk 3 2 1 5 (Some false) SketchKernel.rack0 (Some true) 60 false 0
    (Some true) 0 (Some (1 / 4)) 20 0 (1 / 10).

(** The herringbone rack as a single helix. *)
Definition single_helix : Obj.t :=
  Obj.mk 3 2 1 5 (Some false) SketchKernel.rack0 (Some false) 45 false 0
    (Some true) 0 (Some (1 / 4)) 20 0 (1 / 10).

(** The default object without end caps. *)
Definition open_rack : Obj.t := with_add_endings SketchKernel.obj0 (Some false).

End Examples.

(** ** Facts about the helpers *)

Lemma bind_ok {A B : Type} (c : result A) (k : A -> result B) (b : B) :
  bind c k = Ok b -> exists a, c = Ok a /\ k a = Ok b.
Proof.
  destruct c as [a|e]; simpl; intros H; [eauto | discriminate].
Qed.

Lemma vadd_assoc (a b c : Vector) : vadd (vadd a b) c = vadd a (vadd b c).
Proof. destruct a, b, c; unfold vadd; simpl; f_equal; ring. Qed.

Lemma firstVertex_translate (v : Vector) (e : Edge) :
  firstVertex (translate v e) = vadd (firstVertex e) v.
Proof. destruct e; reflexivity. Qed.

Lemma lastVertex_translate (v : Vector) (e : Edge) :
  lastVertex (translate v e) = vadd (lastVertex e) v.
Proof. destruct e; reflexivity. Qed.

Lemma vertices_translate (v : Vector) (w : Wire) :
  vertices (translate_wire v w) = map (fun p => vadd p v) (vertices w).
Proof.
  destruct w as [|e w]; [reflexivity|].
  unfold vertices, translate_wire. cbn [map].
  rewrite firstVertex_translate, lastVertex_translate. do 2 f_equal.
  rewrite !map_map. apply map_ext. intros; apply lastVertex_translate.
Qed.

(** ** The raw tooth *)

(** ** Fillets *)

Section Fillets.

Context {K : GeometryKernel}.

Lemma py_get_app {A : Type} (pre post : list A) (x : A) :
  py_get (pre ++ x :: post) (length pre) = Ok x.
Proof.
  unfold py_get. rewrite nth_error_app2 by lia.
  rewrite Nat.sub_diag. reflexivity.
Qed.

Lemma firstn_app_exact {A : Type} (pre post : list A) :
  firstn (length pre) (pre ++ post) = pre.
Proof.
  rewrite firstn_app, Nat.sub_diag, firstn_all. simpl. apply app_nil_r.
Qed.

Lemma skipn_app_exact {A : Type} (pre post : list A) :
  skipn (length pre) (pre ++ post) = post.
Proof.
  rewrite skipn_app, Nat.sub_diag, skipn_all. reflexivity.
Qed.

(** [insert_fillet] at the corner between two edges that are there. *)
Lemma insert_fillet_corner (pre post : list (option Edge)) (e1 e2 : Edge)
    (r : R) :
  insert_fillet (pre ++ Some e1 :: Some e2 :: post) (length pre) r
  = ('(a, f, b) <- corner e1 e2 r ;;
     Ok (pre ++ Some a :: f :: Some b :: post)).
Proof.
  unfold insert_fillet, corner.
  rewrite py_get_app. cbn [bind].
  replace (pre ++ Some e1 :: Some e2 :: post)
    with ((pre ++ [Some e1]) ++ Some e2 :: post)
    by (rewrite <- app_assoc; reflexivity).
  replace (length pre + 1)%nat with (length (pre ++ [Some e1]))
    by (rewrite length_app; reflexivity).
  rewrite py_get_app. cbn [bind].
  destruct (Rlt_dec 0 r) as [Hr|Hr].
  - destruct (make_fillet e1 e2 r) as [[[a f] b]|e]; cbn [bind]; [|reflexivity].
    f_equal.
    replace (length (pre ++ [Some e1])) with (length pre + 1)%nat
      by (rewrite length_app; reflexivity).
    rewrite <- app_assoc. cbn [app].
    rewrite firstn_app_exact.
    replace (pre ++ Some e1 :: Some e2 :: post)
      with ((pre ++ [Some e1; Some e2]) ++ post)
      by (rewrite <- app_assoc; reflexivity).
    replace (length pre + 2)%nat with (length (pre ++ [Some e1; Some e2]))
      by (rewrite length_app; reflexivity).
    rewrite skipn_app_exact. reflexivity.
  - f_equal.
    rewrite firstn_app_exact, skipn_app_exact.
    rewrite <- app_assoc. reflexivity.
Qed.

Lemma insert_fillet_at (edges pre post : list (option Edge)) (pos : nat)
    (e1 e2 : Edge) (r : R) :
  edges = pre ++ Some e1 :: Some e2 :: post ->
  pos = length pre ->
  insert_fillet edges pos r
  = ('(a, f, b) <- corner e1 e2 r ;;
     Ok (pre ++ Some a :: f :: Some b :: post)).
Proof. intros -> ->. apply insert_fillet_corner. Qed.

Ltac fillet_step pre e1 e2 :=
  match goal with
  | |- context [insert_fillet ?edges ?pos ?r] =>
      rewrite (insert_fillet_at edges pre _ pos e1 e2 r eq_refl eq_refl)
  end.

(** The four calls on a wire of five edges, corner by corner. *)
Lemma fillet_tooth_corners (m rf hf : R) (l1 l2 l3 l4 l5 : Edge) :
  fillet_tooth m rf hf [l1; l2; l3; l4; l5]
  = ('(a0, f0, b1) <- corner l1 l2 (m * rf) ;;
     '(a1, f1, b2) <- corner b1 l3 (m * hf) ;;
     '(a2, f2, b3) <- corner b2 l4 (m * hf) ;;
     '(a3, f3, a4) <- corner b3 l5 (m * rf) ;;
     Ok [Some a0; f0; Some a1; f1; Some a2; f2; Some a3; f3; Some a4]).
Proof.
  unfold fillet_tooth. cbn [map].
  fillet_step (@nil (option Edge)) l1 l2.
  destruct (corner l1 l2 (m * rf)) as [[[a0 f0] b1]|e]; cbn [bind app];
    [|reflexivity].
  fillet_step [Some a0; f0] b1 l3.
  destruct (corner b1 l3 (m * hf)) as [[[a1 f1] b2]|e]; cbn [bind app];
    [|reflexivity].
  fillet_step [Some a0; f0; Some a1; f1] b2 l4.
  destruct (corner b2 l4 (m * hf)) as [[[a2 f2] b3]|e]; cbn [bind app];
    [|reflexivity].
  fillet_step [Some a0; f0; Some a1; f1; Some a2; f2] b3 l5.
  destruct (corner b3 l5 (m * rf)) as [[[a3 f3] a4]|e]; cbn [bind app];
    reflexivity.
Qed.

Lemma corner_ok (e1 e2 : Edge) (r : R) (a b : Edge) (f : option Edge) :
  corner e1 e2 r = Ok (a, f, b) ->
  (f = None <-> ~ 0 < r) /\
  (f = None -> a = e1 /\ b = e2) /\
  (forall g, f = Some g -> make_fillet e1 e2 r = Ok (a, g, b)).
Proof.
  unfold corner. destruct (Rlt_dec 0 r) as [Hr|Hr].
  - destruct (make_fillet e1 e2 r) as [[[a' f'] b']|e]; cbn [bind];
      [|discriminate].
    intros H; injection H as <- <- <-.
    repeat split; try discriminate; try tauto.
    intros g Hg; injection Hg as <-. reflexivity.
  - intros H; injection H as <- <- <-.
    repeat split; try tauto; try discriminate.
Qed.

Lemma corner_sharp (e1 e2 : Edge) (r : R) :
  ~ 0 < r -> corner e1 e2 r = Ok (e1, None, e2).
Proof.
  intros Hr. unfold corner. destruct (Rlt_dec 0 r); tauto.
Qed.

Lemma corner_joins (e1 e2 : Edge) (r : R) (a b : Edge) (f : option Edge) :
  fillet_joins ->
  corner e1 e2 r = Ok (a, f, b) ->
  firstVertex a = firstVertex e1 /\
  lastVertex b = lastVertex e2 /\
  match f with
  | Some g => lastVertex a = firstVertex g /\ lastVertex g = firstVertex b
  | None => lastVertex a = lastVertex e1 /\ firstVertex b = firstVertex e2
  end.
Proof.
  intros HJ H. destruct (corner_ok _ _ _ _ _ _ H) as (_ & Hn & Hs).
  destruct f as [g|].
  - destruct (HJ _ _ _ _ _ _ (Hs g eq_refl)) as (? & ? & ? & ?). tauto.
  - destruct (Hn eq_refl) as [-> ->]. tauto.
Qed.

(** What a successful run of the four calls leaves in the slots. *)
Lemma fillet_tooth_inversion (m rf hf : R) (l1 l2 l3 l4 l5 : Edge)
    (slots : list (option Edge)) :
  fillet_tooth m rf hf [l1; l2; l3; l4; l5] = Ok slots ->
  exists a0 f0 b1 a1 f1 b2 a2 f2 b3 a3 f3 a4,
    corner l1 l2 (m * rf) = Ok (a0, f0, b1) /\
    corner b1 l3 (m * hf) = Ok (a1, f1, b2) /\
    corner b2 l4 (m * hf) = Ok (a2, f2, b3) /\
    corner b3 l5 (m * rf) = Ok (a3, f3, a4) /\
    slots = [Some a0; f0; Some a1; f1; Some a2; f2; Some a3; f3; Some a4] /\
    drop_none slots
    = a0 :: (slot_edges f0 ++ a1 :: slot_edges f1 ++ a2 :: slot_edges f2
               ++ a3 :: slot_edges f3) ++ [a4].
Proof.
  rewrite fillet_tooth_corners. intros Hs.
  apply bind_ok in Hs. destruct Hs as ([[a0 f0] b1] & H0 & Hs).
  apply bind_ok in Hs. destruct Hs as ([[a1 f1] b2] & H1 & Hs).
  apply bind_ok in Hs. destruct Hs as ([[a2 f2] b3] & H2 & Hs).
  apply bind_ok in Hs. destruct Hs as ([[a3 f3] a4] & H3 & Hs).
  injection Hs as <-.
  exists a0, f0, b1, a1, f1, b2, a2, f2, b3, a3, f3, a4.
  repeat (split; [assumption|]).
  split; [reflexivity|].
  destruct f0, f1, f2, f3; reflexivity.
Qed.

(** With fillets that join, the filleted edges are one chain between the
    outer ends of the raw wire. *)
Lemma filleted_chain_joins (m rf hf : R) (p1 p2 p3 p4 p5 p6 : Vector)
    (slots : list (option Edge)) :
  fillet_joins ->
  fillet_tooth m rf hf
    [Line p1 p2; Line p2 p3; Line p3 p4; Line p4 p5; Line p5 p6]
  = Ok slots ->
  chained (drop_none slots) /\
  exists a0 mid a4,
    drop_none slots = a0 :: mid ++ [a4] /\
    (3 <= length mid <= 7)%nat /\
    firstVertex a0 = p1 /\ lastVertex a4 = p6.
Proof.
  intros HJ Hs.
  destruct (fillet_tooth_inversion _ _ _ _ _ _ _ _ _ Hs)
    as (a0 & f0 & b1 & a1 & f1 & b2 & a2 & f2 & b3 & a3 & f3 & a4
        & H0 & H1 & H2 & H3 & -> & Hd).
  destruct (corner_joins _ _ _ _ _ _ HJ H0) as (A0 & B0 & J0).
  destruct (corner_joins _ _ _ _ _ _ HJ H1) as (A1 & B1 & J1).
  destruct (corner_joins _ _ _ _ _ _ HJ H2) as (A2 & B2 & J2).
  destruct (corner_joins _ _ _ _ _ _ HJ H3) as (A3 & B3 & J3).
  cbn [firstVertex lastVertex] in *.
  split.
  - clear Hd Hs H0 H1 H2 H3.
    destruct f0 as [g0|], f1 as [g1|], f2 as [g2|], f3 as [g3|];
      destruct J0, J1, J2, J3;
      cbn [drop_none chained firstVertex lastVertex] in *;
      repeat split; congruence.
  - eexists a0, _, a4. split; [exact Hd|].
    split; [|split; assumption].
    destruct f0, f1, f2, f3; cbn; lia.
Qed.

End Fillets.

Section SketchFacts.

Import SketchKernel.

Lemma sketch_fillet_joins (limit : R) : @fillet_joins (kernel limit).
Proof.
  intros e1 e2 r a f b. cbn [make_fillet kernel]. unfold fillet.
  destruct (Rlt_dec limit r); [discriminate|].
  intros H; injection H as <- <- <-. cbn. tauto.
Qed.

Lemma sketch_corner_round (limit r : R) (e1 e2 : Edge) :
  0 < r -> r <= limit ->
  @corner (kernel limit) e1 e2 r
  = Ok (Line (firstVertex e1) (mid (firstVertex e1) (lastVertex e1)),
        Some (Arc (mid (firstVertex e1) (lastVertex e1))
                  (mid (lastVertex e1) (lastVertex e2)) (lastVertex e1)),
        Line (mid (lastVertex e1) (lastVertex e2)) (lastVertex e2)).
Proof.
  intros H0 Hl. unfold corner. destruct (Rlt_dec 0 r); [|tauto].
  cbn [make_fillet kernel]. unfold fillet.
  destruct (Rlt_dec limit r); [lra|]. reflexivity.
Qed.

Lemma sketch_corner_refused (limit r : R) (e1 e2 : Edge) :
  0 < r -> limit < r ->
  @corner (kernel limit) e1 e2 r = Raise GeometricConstraintError.
Proof.
  intros H0 Hl. unfold corner. destruct (Rlt_dec 0 r); [|tauto].
  cbn [make_fillet kernel]. unfold fillet.
  destruct (Rlt_dec limit r); [reflexivity|tauto].
Qed.

End SketchFacts.

(** ** The build as a whole *)

Lemma bind_ext {A B : Type} (c : result A) (k1 k2 : A -> result B) :
  (forall a, k1 a = k2 a) -> bind c k1 = bind c k2.
Proof. intros E. destruct c; simpl; [apply E | reflexivity]. Qed.

Section Build.

Context {K : GeometryKernel} {T : ToolConvention}.

(** The build in one equation: what it writes, and what it returns. *)
Lemma generate_gear_shape_unfold (obj : Obj.t) :
  generate_gear_shape obj
  = (Obj.write obj (update_rack obj) (effective_module obj * PI),
     pol <- rack_outline obj (effective_module obj) ;;
     make_solid (Obj.height obj) (Obj.helix_angle obj * PI / 180)
       (Obj.double_helix obj) pol).
Proof.
  unfold generate_gear_shape, effective_module, compute_properties.
  destruct (InvoluteRack.properties_from_tool (update_rack obj)).
  - destruct (tool_properties (update_rack obj)) as [[m m_n] pa].
    reflexivity.
  - reflexivity.
Qed.

(** With [properties_from_tool] off the build draws with the stored
    module. *)
Lemma effective_module_plain (obj : Obj.t) :
  Obj.properties_from_tool obj = Some false ->
  effective_module obj = Obj.module obj.
Proof.
  intros Hp.
  unfold effective_module, compute_properties, update_rack,
    InvoluteRack._update.
  cbn [InvoluteRack.properties_from_tool]. rewrite Hp. reflexivity.
Qed.

Lemma helix_radians_zero (a : R) : a * PI / 180 = 0 <-> a = 0.
Proof.
  pose proof PI_RGT_0 as HP. split; intros H.
  - assert (E : a * PI = 0) by lra.
    apply Rmult_integral in E. destruct E; lra.
  - subst. lra.
Qed.

End Build.

(** C7. With [properties_from_tool] off, the [transverse_pitch] the build
    writes is the module times pi, whatever the helix angle is. *)
Theorem transverse_pitch_is_module_pi `{GeometryKernel} `{ToolConvention}
    (obj : Obj.t) :
  Obj.properties_from_tool obj = Some false ->
  Obj.transverse_pitch (fst (generate_gear_shape obj)) = Obj.module obj * PI.
Proof.
  intros Hp. rewrite generate_gear_shape_unfold. cbn [fst].
  cbn [Obj.write Obj.transverse_pitch].
  rewrite (effective_module_plain obj Hp). reflexivity.
Qed.

Lemma transverse_pitch_is_module_pi_witness :
  Obj.transverse_pitch
    (fst (@generate_gear_shape (SketchKernel.kernel 1) SketchKernel.convention
            SketchKernel.herringbone))
  = 1 * PI.
Proof.
  apply (@transverse_pitch_is_module_pi (SketchKernel.kernel 1)
           SketchKernel.convention SketchKernel.herringbone).
  reflexivity.
Defined.

(** C5, amended. What the build returns is decided by the height, the
    helix angle and [double_helix], and the four cases cover every build
    with a height that is not negative. [pol] is the closed outline.
    - height 0: the outline itself, no kernel solid;
    - height positive, helix angle 0: the outline extruded by
      [(0, 0, height)];
    - height positive, helix angle not 0, single helix: the solid loft
      through the outline and its copy moved by
      [(0, tan(beta) * height, height)];
    - height positive, helix angle not 0, double helix: the solid loft
      through the outline, its copy moved by
      [(0, tan(beta) * height / 2, height / 2)] and its copy moved by
      [(0, 0, height)].
    Here [beta] is the helix angle in radians.  Both lofts are asked for as
    solids; the ruled flag is passed in the double-helix call only. *)
Theorem solid_case_split `{GeometryKernel} `{ToolConvention} (obj : Obj.t) :
  let m := effective_module obj in
  let height := Obj.height obj in
  let beta := Obj.helix_angle obj * PI / 180 in
  (height = 0 ->
   snd (generate_gear_shape obj)
   = (pol <- rack_outline obj m ;; Ok (Outline pol))) /\
  (0 < height -> Obj.helix_angle obj = 0 ->
   snd (generate_gear_shape obj)
   = (pol <- rack_outline obj m ;;
      s <- extrude pol (vec 0 0 height) ;;
      Ok (Body s))) /\
  (0 < height -> Obj.helix_angle obj <> 0 -> Obj.double_helix obj = false ->
   snd (generate_gear_shape obj)
   = (pol <- rack_outline obj m ;;
      s <- makeLoft
             [pol; translate_wire (vec 0 (tan beta * height) height) pol]
             true false ;;
      Ok (Body s))) /\
  (0 < height -> Obj.helix_angle obj <> 0 -> Obj.double_helix obj = true ->
   snd (generate_gear_shape obj)
   = (pol <- rack_outline obj m ;;
      s <- makeLoft
             [pol;
              translate_wire (vec 0 (tan beta * height / 2) (height / 2)) pol;
              translate_wire (vec 0 0 height) pol]
             true true ;;
      Ok (Body s))) /\
  (0 <= height ->
   height = 0 \/
   (0 < height /\ Obj.helix_angle obj = 0) \/
   (0 < height /\ Obj.helix_angle obj <> 0 /\ Obj.double_helix obj = false) \/
   (0 < height /\ Obj.helix_angle obj <> 0 /\ Obj.double_helix obj = true)).
Proof.
  cbv zeta. rewrite generate_gear_shape_unfold. cbn [snd].
  pose proof (helix_radians_zero (Obj.helix_angle obj)) as Hz.
  repeat split.
  - intros Hh. apply bind_ext. intros pol. unfold make_solid.
    destruct (Req_dec_T (Obj.height obj) 0); [reflexivity | contradiction].
  - intros Hh Ha. apply bind_ext. intros pol. unfold make_solid.
    destruct (Req_dec_T (Obj.height obj) 0); [lra|].
    destruct (Req_dec_T (Obj.helix_angle obj * PI / 180) 0); [reflexivity|].
    tauto.
  - intros Hh Ha Hd. apply bind_ext. intros pol. unfold make_solid.
    destruct (Req_dec_T (Obj.height obj) 0); [lra|].
    destruct (Req_dec_T (Obj.helix_angle obj * PI / 180) 0); [tauto|].
    rewrite Hd. reflexivity.
  - intros Hh Ha Hd. apply bind_ext. intros pol. unfold make_solid.
    destruct (Req_dec_T (Obj.height obj) 0); [lra|].
    destruct (Req_dec_T (Obj.helix_angle obj * PI / 180) 0); [tauto|].
    rewrite Hd. reflexivity.
  - intros Hh.
    destruct (Req_dec_T (Obj.height obj) 0) as [E|E]; [tauto|].
    assert (0 < Obj.height obj) by lra.
    destruct (Req_dec_T (Obj.helix_angle obj) 0) as [E'|E']; [tauto|].
    destruct (Obj.double_helix obj); tauto.
Qed.

Lemma solid_case_split_witness :
  let obj := SketchKernel.herringbone in
  let K := SketchKernel.kernel 1 in
  let T := SketchKernel.convention in
  snd (@generate_gear_shape K T obj)
  = (pol <- @rack_outline K obj (effective_module obj) ;;
     s <- makeLoft
            [pol;
             translate_wire (vec 0 (tan (45 * PI / 180) * 2 / 2) (2 / 2)) pol;
             translate_wire (vec 0 0 2) pol]
            true true ;;
     Ok (Body s)).
Proof.
  cbv zeta.
  destruct (@solid_case_split (SketchKernel.kernel 1) SketchKernel.convention
              SketchKernel.herringbone) as (_ & _ & _ & H4 & _).
  apply H4.
  - cbn. lra.
  - cbn. lra.
  - reflexivity.
Defined.

(** ** Tiling *)

Section Tiling.

Lemma py_get_back_app {A : Type} (pre post : list A) (x : A) :
  py_get_back (pre ++ x :: post) (S (length post)) = Ok x.
Proof.
  unfold py_get_back. rewrite length_app. cbn [length].
  replace (S (length post) <=? length pre + S (length post))%nat with true
    by (symmetry; apply Nat.leb_le; lia).
  replace (length pre + S (length post) - S (length post))%nat
    with (length pre) by lia.
  apply py_get_app.
Qed.

Lemma py_get_back_last {A : Type} (pre : list A) (x : A) :
  py_get_back (pre ++ [x]) 1 = Ok x.
Proof. apply (py_get_back_app pre []). Qed.

Lemma nonempty_ends {A : Type} (l : list A) :
  (1 <= length l)%nat ->
  exists x tl y init, l = x :: tl /\ l = init ++ [y].
Proof.
  intros Hl. destruct l as [|x tl]; [cbn in Hl; lia|].
  destruct (exists_last (l := x :: tl)) as (init & y & E); [discriminate|].
  exists x, tl, y, init. split; [reflexivity | exact E].
Qed.

Lemma removelast_map {A B : Type} (f : A -> B) (l : list A) :
  removelast (map f l) = map f (removelast l).
Proof.
  induction l as [|a l IH]; [reflexivity|].
  destruct l as [|b l]; [reflexivity|].
  cbn [map removelast] in *. rewrite IH. reflexivity.
Qed.

Variable m : R.

Lemma translate_translate (u v : Vector) (e : Edge) :
  translate v (translate u e) = translate (vadd u v) e.
Proof. destruct e; cbn; rewrite !vadd_assoc; reflexivity. Qed.

Lemma translate_zero (e : Edge) : translate (vec 0 0 0) e = e.
Proof.
  assert (Z : forall a, vadd a (vec 0 0 0) = a).
  { intros [x y z]. unfold vadd. cbn. rewrite !Rplus_0_r. reflexivity. }
  destruct e; cbn; rewrite !Z; reflexivity.
Qed.

Lemma translate_wire_zero (w : Wire) : translate_wire (vec 0 0 0) w = w.
Proof.
  unfold translate_wire. rewrite <- (map_id w) at 2.
  apply map_ext. apply translate_zero.
Qed.

(** [k] steps of one pitch are one step of [k] pitches. *)
Lemma replica_translate (k : nat) (w : Wire) :
  replica k m w = translate_wire (vec 0 (INR k * (PI * m)) 0) w.
Proof.
  unfold replica. induction k as [|k IH].
  - cbn [Nat.iter INR]. rewrite Rmult_0_l. symmetry.
    apply translate_wire_zero.
  - rewrite Nat.iter_succ, IH. unfold translate_wire. rewrite map_map.
    apply map_ext. intros e. rewrite translate_translate. f_equal.
    unfold vadd. cbn [vx vy vz]. rewrite S_INR. f_equal; ring.
Qed.

Lemma replica_app (k : nat) (w1 w2 : Wire) :
  replica k m (w1 ++ w2) = replica k m w1 ++ replica k m w2.
Proof. rewrite !replica_translate. apply map_app. Qed.

Lemma replicate_spec (n : nat) (tooth : Wire) (teeth : list Wire) :
  replicate n m tooth teeth
  = teeth ++ map (fun k => replica (S k) m tooth) (seq 0 n).
Proof.
  revert tooth teeth. induction n as [|n IH]; intros tooth teeth.
  - cbn. symmetry. apply app_nil_r.
  - cbn [replicate]. rewrite IH, <- app_assoc. f_equal.
    cbn [seq map app]. f_equal.
    rewrite <- seq_shift, map_map. apply map_ext. intros k.
    unfold replica. rewrite (Nat.iter_succ_r (S k)). reflexivity.
Qed.

Lemma tiled_as_replicas (n : nat) (tooth : Wire) :
  replicate n m tooth [tooth]
  = map (fun k => replica k m tooth) (seq 0 (S n)).
Proof.
  rewrite replicate_spec. cbn [seq map app]. f_equal.
  rewrite <- seq_shift, map_map. reflexivity.
Qed.

Lemma nth_error_replicas (n i : nat) (tooth : Wire) :
  nth_error (map (fun k => replica k m tooth) (seq 0 n)) i
  = if (i <? n)%nat then Some (replica i m tooth) else None.
Proof.
  rewrite nth_error_map, nth_error_seq.
  destruct (i <? n)%nat; reflexivity.
Qed.

(** The tooth unit of a chain with at least one inner edge. *)
Lemma tooth_unit_ok (a0 a4 e1 e2 : Edge) (mid rest init : list Edge) :
  mid = e1 :: rest -> mid = init ++ [e2] ->
  py_get (a0 :: mid ++ [a4]) 1 = Ok e1 /\
  py_get_back (a0 :: mid ++ [a4]) 2 = Ok e2 /\
  py_inner (a0 :: mid ++ [a4]) = mid /\
  tooth_unit m (a0 :: mid ++ [a4]) = Ok (mid ++ [bridge m e1 e2]).
Proof.
  intros E1 E2.
  assert (G1 : py_get (a0 :: mid ++ [a4]) 1 = Ok e1)
    by (rewrite E1; reflexivity).
  assert (G2 : py_get_back (a0 :: mid ++ [a4]) 2 = Ok e2).
  { rewrite E2.
    replace (a0 :: (init ++ [e2]) ++ [a4]) with ((a0 :: init) ++ e2 :: [a4])
      by (cbn [app]; rewrite <- app_assoc; reflexivity).
    apply (py_get_back_app (a0 :: init) [a4]). }
  assert (G3 : py_inner (a0 :: mid ++ [a4]) = mid)
    by (unfold py_inner; cbn [tl]; apply removelast_last).
  repeat split; try assumption.
  unfold tooth_unit. rewrite G2. cbn [bind]. rewrite G1. cbn [bind].
  rewrite G3. reflexivity.
Qed.

(** Dropping the bridge of the last copy. *)
Lemma drop_trailing_replicas (n : nat) (inner : Wire) (b : Edge) :
  drop_trailing (map (fun k => replica k m (inner ++ [b])) (seq 0 (S n)))
  = Ok (map (fun k => replica k m (inner ++ [b])) (seq 0 n)
          ++ [replica n m inner]).
Proof.
  unfold drop_trailing. rewrite seq_S, map_app. cbn [map Nat.add].
  rewrite py_get_back_last. cbn [bind]. rewrite removelast_last.
  do 2 f_equal. unfold py_init. rewrite replica_app.
  rewrite (replica_translate n [b]). cbn [translate_wire map].
  rewrite removelast_last. reflexivity.
Qed.

End Tiling.

(** ** The tooth chain of a build *)

Section Chain.

Context {K : GeometryKernel}.

(** The filleted chain of a build: an edge at each end and three to seven
    edges between them; with fillets that join it is one chain from the
    first raw vertex to the last. *)
Lemma tooth_chain_shape (obj : Obj.t) (m : R) (chain : list Edge) :
  tooth_chain obj m = Ok chain ->
  exists c a0 mid a4,
    Obj.clearance obj = Some c /\
    chain = a0 :: mid ++ [a4] /\
    (3 <= length mid <= 7)%nat /\
    (fillet_joins ->
     chained chain /\
     firstVertex a0 = vec (- m * (1 + c)) (- m * PI / 2) 0 /\
     lastVertex a4 = vec (- m * (1 + c)) (- (- m * PI / 2)) 0).
Proof.
  unfold tooth_chain, tooth_profile.
  destruct (Obj.clearance obj) as [c|]; cbn [getattr bind]; [|discriminate].
  intros H. apply bind_ok in H. destruct H as (slots & Hs & H).
  injection H as <-.
  unfold raw_tooth, tooth_lines, tooth_points, points_to_wire in Hs.
  cbn [map fst snd fcvec] in Hs.
  destruct (fillet_tooth_inversion _ _ _ _ _ _ _ _ _ Hs)
    as (a0 & f0 & b1 & a1 & f1 & b2 & a2 & f2 & b3 & a3 & f3 & a4
        & _ & _ & _ & _ & _ & Hd).
  exists c, a0,
    (slot_edges f0 ++ a1 :: slot_edges f1 ++ a2 :: slot_edges f2
       ++ a3 :: slot_edges f3), a4.
  split; [reflexivity|]. split; [exact Hd|].
  split; [destruct f0, f1, f2, f3; cbn; lia|].
  intros HJ.
  destruct (filleted_chain_joins _ _ _ _ _ _ _ _ _ _ HJ Hs)
    as (Hc & a0' & mid & a4' & Hd' & _ & Hf & Hl).
  rewrite Hd in Hd'. injection Hd' as <- Hd'.
  apply app_inj_tail in Hd'. destruct Hd' as [_ <-].
  tauto.
Qed.

(** Without fillets the chain is the raw tooth, whatever the kernel. *)
Lemma tooth_chain_sharp (obj : Obj.t) (m c : R) :
  Obj.clearance obj = Some c ->
  Obj.root_fillet obj = 0 -> Obj.head_fillet obj = 0 ->
  tooth_chain obj m
  = Ok (raw_tooth m c (Obj.head obj) (Obj.pressure_angle obj * PI / 180)).
Proof.
  intros Hc Hr Hh. unfold tooth_chain, tooth_profile.
  rewrite Hc, Hr, Hh. cbn [getattr bind].
  unfold raw_tooth, tooth_lines, tooth_points, points_to_wire.
  cbn [map fst snd]. rewrite fillet_tooth_corners.
  repeat (rewrite corner_sharp by (rewrite Rmult_0_r; apply Rlt_irrefl);
          cbn [bind]).
  reflexivity.
Qed.

End Chain.

Lemma herringbone_chain :
  exists chain,
    @tooth_chain (SketchKernel.kernel 1) SketchKernel.herringbone
      (@effective_module SketchKernel.convention SketchKernel.herringbone)
    = Ok chain.
Proof.
  rewrite effective_module_plain by reflexivity.
  unfold tooth_chain, tooth_profile. cbn [getattr bind SketchKernel.herringbone
    Obj.clearance Obj.head Obj.pressure_angle Obj.head_fillet Obj.root_fillet
    Obj.module].
  unfold raw_tooth, tooth_lines, tooth_points, points_to_wire.
  cbn [map fst snd]. rewrite fillet_tooth_corners.
  rewrite sketch_corner_round by lra. cbn [bind].
  rewrite corner_sharp by lra. cbn [bind].
  rewrite corner_sharp by lra. cbn [bind].
  rewrite sketch_corner_round by lra. cbn [bind].
  eexists. reflexivity.
Qed.

(** C3, amended. The tooth unit is the filleted chain without its first
    and last edge, closed by the bridging edge from the end of its last
    edge to the start of its first edge moved one pitch [PI * m] along the
    pitch axis. The loop makes [N] teeth in all: tooth 0 is the unit and
    every next tooth is the one before it moved by [(0, PI * m, 0)], edge
    by edge and vertex by vertex. After the loop the last tooth loses its
    bridging edge and nothing else changes. [m] is the module the build
    draws with; it is the stored module when [properties_from_tool] is
    off. *)
Theorem teeth_are_translated_copies `{GeometryKernel} `{ToolConvention}
    (obj : Obj.t) (chain : list Edge) :
  let m := effective_module obj in
  let N := Obj.num_teeth obj in
  let pitch := vec 0 (PI * m) 0 in
  (3 <= N <= 10000)%Z ->
  tooth_chain obj m = Ok chain ->
  exists e1 e2 rest init teeth final,
    py_inner chain = e1 :: rest /\
    py_inner chain = init ++ [e2] /\
    py_get chain 1 = Ok e1 /\
    py_get_back chain 2 = Ok e2 /\
    let unit := py_inner chain ++ [bridge m e1 e2] in
    tooth_unit m chain = Ok unit /\
    tiled_teeth N m chain = Ok teeth /\
    length teeth = Z.to_nat N /\
    nth_error teeth 0 = Some unit /\
    (forall i w w',
        nth_error teeth i = Some w -> nth_error teeth (S i) = Some w' ->
        w' = translate_wire pitch w /\
        vertices w' = map (fun p => vadd p pitch) (vertices w)) /\
    (forall i, (i < Z.to_nat N)%nat ->
        nth_error teeth i
        = Some (translate_wire (vec 0 (INR i * (PI * m)) 0) unit)) /\
    drop_trailing teeth = Ok final /\
    length final = Z.to_nat N /\
    (forall i, (S i < Z.to_nat N)%nat ->
        nth_error final i = nth_error teeth i) /\
    (exists w,
        nth_error teeth (Z.to_nat N - 1) = Some w /\
        nth_error final (Z.to_nat N - 1) = Some (removelast w) /\
        w = removelast w
              ++ [translate (vec 0 (INR (Z.to_nat N - 1) * (PI * m)) 0)
                    (bridge m e1 e2)]) /\
    rack_teeth obj m chain
    = (add_endings <- getattr "add_endings" (Obj.add_endings obj) ;;
       endings add_endings m N chain final) /\
    (Obj.properties_from_tool obj = Some false -> m = Obj.module obj).
Proof.
  cbv zeta. intros HN Hchain.
  destruct (tooth_chain_shape _ _ _ Hchain)
    as (c & a0 & mid & a4 & _ & -> & Hmid & _).
  destruct (nonempty_ends mid) as (e1 & rest & e2 & init & E1 & E2); [lia|].
  destruct (tooth_unit_ok (effective_module obj) a0 a4 e1 e2 mid rest init
              E1 E2) as (G1 & G2 & G3 & GU).
  set (m := effective_module obj) in *.
  set (unit := mid ++ [bridge m e1 e2]).
  set (n := Z.to_nat (Obj.num_teeth obj - 1)).
  assert (Hn : Z.to_nat (Obj.num_teeth obj) = S n) by (unfold n; lia).
  assert (HT : tiled_teeth (Obj.num_teeth obj) m (a0 :: mid ++ [a4])
               = Ok (map (fun k => replica k m unit) (seq 0 (S n)))).
  { unfold tiled_teeth. rewrite GU. cbn [bind]. f_equal.
    apply tiled_as_replicas. }
  exists e1, e2, rest, init,
    (map (fun k => replica k m unit) (seq 0 (S n))),
    (map (fun k => replica k m unit) (seq 0 n) ++ [replica n m mid]).
  rewrite G3, Hn.
  split; [exact E1|]. split; [exact E2|].
  split; [exact G1|]. split; [exact G2|].
  split; [exact GU|]. split; [exact HT|].
  split; [rewrite length_map, length_seq; reflexivity|].
  split; [reflexivity|].
  split.
  { intros i w w'. rewrite !nth_error_replicas.
    destruct (S i <? S n)%nat eqn:Hi; [|discriminate].
    apply Nat.ltb_lt in Hi.
    replace (i <? S n)%nat with true by (symmetry; apply Nat.ltb_lt; lia).
    intros Hw Hw'. injection Hw as <-. injection Hw' as <-.
    split; [reflexivity|].
    exact (vertices_translate (vec 0 (PI * m) 0) (replica i m unit)). }
  split.
  { intros i Hi. rewrite nth_error_replicas.
    replace (i <? S n)%nat with true by (symmetry; apply Nat.ltb_lt; lia).
    rewrite replica_translate. reflexivity. }
  split; [apply drop_trailing_replicas|].
  split; [rewrite length_app, length_map, length_seq; cbn; lia|].
  split.
  { intros i Hi. rewrite nth_error_app1
      by (rewrite length_map, length_seq; lia).
    rewrite !nth_error_replicas.
    replace (i <? n)%nat with true by (symmetry; apply Nat.ltb_lt; lia).
    replace (i <? S n)%nat with true by (symmetry; apply Nat.ltb_lt; lia).
    reflexivity. }
  split.
  { replace (S n - 1)%nat with n by lia.
    assert (EW : replica n m unit
                 = replica n m mid
                     ++ [translate (vec 0 (INR n * (PI * m)) 0)
                           (bridge m e1 e2)]).
    { unfold unit. rewrite replica_app.
      rewrite (replica_translate m n [bridge m e1 e2]). reflexivity. }
    exists (replica n m unit).
    split.
    { rewrite nth_error_replicas.
      replace (n <? S n)%nat with true by (symmetry; apply Nat.ltb_lt; lia).
      reflexivity. }
    rewrite EW, removelast_last. split; [|reflexivity].
    rewrite nth_error_app2 by (rewrite length_map, length_seq; lia).
    rewrite length_map, length_seq, Nat.sub_diag. reflexivity. }
  split.
  { unfold rack_teeth. rewrite HT. cbn [bind]. unfold unit.
    rewrite drop_trailing_replicas. reflexivity. }
  apply effective_module_plain.
Qed.

Lemma teeth_are_translated_copies_witness :
  exists chain teeth,
    @tooth_chain (SketchKernel.kernel 1) SketchKernel.herringbone 1 = Ok chain /\
    @tiled_teeth 3 1 chain = Ok teeth /\
    length teeth = 3%nat.
Proof.
  destruct herringbone_chain as (chain & Hc).
  destruct (@teeth_are_translated_copies (SketchKernel.kernel 1)
              SketchKernel.convention SketchKernel.herringbone chain)
    as (e1 & e2 & rest & init & teeth & final & _ & _ & _ & _ & _ & HT & HL & _).
  - cbn. lia.
  - exact Hc.
  - exists chain, teeth. split; [exact Hc|]. split; [exact HT | exact HL].
Defined.

(** ** End caps and extent *)

Section Extent.

Variable m : R.

Lemma chain_ends_capped (first_edge last_edge : Edge) (teeth : list Wire) :
  chain_ends ([[first_edge]] ++ teeth ++ [[last_edge]])
  = Ok (xy (firstVertex first_edge), xy (lastVertex last_edge)).
Proof.
  unfold chain_ends.
  assert (P2 : @py_get_back Wire
                 ([[first_edge]] ++ teeth ++ [[last_edge]]) 1
               = Ok [last_edge])
    by (rewrite app_assoc; apply (@py_get_back_last Wire)).
  rewrite P2. reflexivity.
Qed.

Lemma chain_ends_open (n : nat) (inner rest init : Wire) (e1 e2 b : Edge) :
  inner = e1 :: rest -> inner = init ++ [e2] ->
  chain_ends (map (fun k => replica k m (inner ++ [b])) (seq 0 n)
                ++ [replica n m inner])
  = Ok (xy (firstVertex e1),
        xy (vadd (lastVertex e2) (vec 0 (INR n * (PI * m)) 0))).
Proof.
  intros E1 E2.
  set (L := map (fun k => replica k m (inner ++ [b])) (seq 0 n)
              ++ [replica n m inner]).
  assert (P01 : (w <- py_get L 0 ;; py_get w 0) = Ok e1).
  { unfold L. destruct n as [|n].
    - cbn [seq map app py_get nth_error bind replica Nat.iter].
      rewrite E1. reflexivity.
    - cbn [seq map app py_get nth_error bind replica Nat.iter].
      rewrite E1. reflexivity. }
  assert (P2 : py_get_back L 1 = Ok (replica n m inner))
    by apply py_get_back_last.
  assert (P3 : py_get_back (replica n m inner) 1
               = Ok (translate (vec 0 (INR n * (PI * m)) 0) e2)).
  { rewrite E2 at 1. rewrite replica_app.
    rewrite (replica_translate m n [e2]). apply py_get_back_last. }
  unfold chain_ends.
  destruct (py_get L 0) as [w|]; cbn [bind] in *; [|discriminate].
  rewrite P01. cbn [bind].
  rewrite P2. cbn [bind]. rewrite P3. cbn [bind].
  rewrite lastVertex_translate. reflexivity.
Qed.

Lemma chained_last_two (l : list Edge) (x y : Edge) :
  chained (l ++ [x; y]) -> lastVertex x = firstVertex y.
Proof.
  induction l as [|a l IH]; cbn [app chained].
  - tauto.
  - destruct (l ++ [x; y]) eqn:E.
    + destruct l; discriminate.
    + intros [_ Hc]. apply IH. exact Hc.
Qed.

End Extent.

(** C4, amended. With end caps the chain of teeth starts with the first
    edge of the filleted chain and ends with its last edge moved by [N -
    1] pitches, and from its start to its end it spans [N * m * PI] along
    the pitch axis. Without end caps the chain starts at the start of the
    second edge of the filleted chain, where the first one ends, and ends
    at the end of the last but one edge of the last copy, so that it spans
    [N - 1] pitches and the width of the tooth between those two edges.
    [m] is the module the build draws with; it is the stored module when
    [properties_from_tool] is off. *)
Theorem rack_pitch_extent `{GeometryKernel} `{ToolConvention}
    (obj : Obj.t) (chain : list Edge) :
  let m := effective_module obj in
  let N := Obj.num_teeth obj in
  fillet_joins ->
  (3 <= N <= 10000)%Z ->
  tooth_chain obj m = Ok chain ->
  exists first_edge last_edge e1 e2 final,
    py_get chain 0 = Ok first_edge /\
    py_get_back chain 1 = Ok last_edge /\
    py_get chain 1 = Ok e1 /\
    py_get_back chain 2 = Ok e2 /\
    (teeth <- tiled_teeth N m chain ;; drop_trailing teeth) = Ok final /\
    length final = Z.to_nat N /\
    (Obj.add_endings obj = Some true ->
     let teeth :=
       [[first_edge]] ++ final
         ++ [[translate (vec 0 (PI * m * IZR (N - 1)) 0) last_edge]] in
     rack_teeth obj m chain = Ok teeth /\
     pitch_extent teeth = Ok (IZR N * m * PI)) /\
    (Obj.add_endings obj = Some false ->
     rack_teeth obj m chain = Ok final /\
     chain_ends final
     = Ok (xy (firstVertex e1),
           xy (vadd (lastVertex e2) (vec 0 (IZR (N - 1) * (PI * m)) 0))) /\
     firstVertex e1 = lastVertex first_edge /\
     lastVertex e2 = firstVertex last_edge /\
     pitch_extent final
     = Ok (IZR (N - 1) * (m * PI)
           + (vy (lastVertex e2) - vy (firstVertex e1)))) /\
    (Obj.properties_from_tool obj = Some false -> m = Obj.module obj).
Proof.
  cbv zeta. intros HJ HN Hchain.
  destruct (tooth_chain_shape _ _ _ Hchain)
    as (c & a0 & mid & a4 & _ & -> & Hmid & Hends).
  destruct (Hends HJ) as (Hc & Hf & Hl). clear Hends.
  destruct (nonempty_ends mid) as (e1 & rest & e2 & init & E1 & E2); [lia|].
  destruct (tooth_unit_ok (effective_module obj) a0 a4 e1 e2 mid rest init
              E1 E2) as (G1 & G2 & G3 & GU).
  set (m := effective_module obj) in *.
  set (n := Z.to_nat (Obj.num_teeth obj - 1)).
  assert (Hn : Z.to_nat (Obj.num_teeth obj) = S n) by (unfold n; lia).
  assert (HI : INR n = IZR (Obj.num_teeth obj - 1)).
  { unfold n. rewrite INR_IZR_INZ, Z2Nat.id by lia. reflexivity. }
  set (final := map (fun k => replica k m (mid ++ [bridge m e1 e2])) (seq 0 n)
                  ++ [replica n m mid]).
  assert (HF : (teeth <- tiled_teeth (Obj.num_teeth obj) m (a0 :: mid ++ [a4]) ;;
                drop_trailing teeth) = Ok final).
  { unfold tiled_teeth. rewrite GU. cbn [bind]. rewrite tiled_as_replicas.
    apply drop_trailing_replicas. }
  assert (HR : rack_teeth obj m (a0 :: mid ++ [a4])
               = (add_endings <- getattr "add_endings" (Obj.add_endings obj) ;;
                  endings add_endings m (Obj.num_teeth obj)
                    (a0 :: mid ++ [a4]) final)).
  { unfold rack_teeth.
    destruct (tiled_teeth (Obj.num_teeth obj) m (a0 :: mid ++ [a4]))
      as [teeth|e]; cbn [bind] in *; [|discriminate].
    rewrite HF. reflexivity. }
  assert (GL : py_get_back (a0 :: mid ++ [a4]) 1 = Ok a4)
    by (apply (py_get_back_last (a0 :: mid))).
  exists a0, a4, e1, e2, final.
  split; [reflexivity|]. split; [exact GL|].
  split; [exact G1|]. split; [exact G2|]. split; [exact HF|].
  split.
  { unfold final. rewrite length_app, length_map, length_seq. cbn. lia. }
  split; [|split].
  - intros Ha. rewrite HR, Ha. cbn [getattr bind]. unfold endings.
    cbn [py_get nth_error bind]. rewrite GL. cbn [bind].
    split; [reflexivity|].
    unfold pitch_extent. rewrite chain_ends_capped. cbn [bind snd xy].
    rewrite lastVertex_translate, Hf, Hl. cbn [vy vadd]. f_equal.
    rewrite minus_IZR. field.
  - intros Ha. rewrite HR, Ha. cbn [getattr bind]. unfold endings.
    split; [reflexivity|].
    assert (HE : chain_ends final
                 = Ok (xy (firstVertex e1),
                       xy (vadd (lastVertex e2)
                             (vec 0 (IZR (Obj.num_teeth obj - 1) * (PI * m)) 0)))).
    { unfold final. rewrite <- HI.
      apply (chain_ends_open m n mid rest init e1 e2); [exact E1 | exact E2]. }
    split; [exact HE|].
    split.
    { rewrite E1 in Hc. cbn [app chained] in Hc. symmetry. tauto. }
    split.
    { rewrite E2 in Hc.
      apply (chained_last_two (a0 :: init) e2 a4).
      cbn [app] in *. rewrite <- app_assoc in Hc. exact Hc. }
    unfold pitch_extent. rewrite HE. cbn [bind snd xy vy vadd]. f_equal.
    ring.
  - apply effective_module_plain.
Qed.

Lemma rack_pitch_extent_witness :
  exists teeth,
    rack_teeth SketchKernel.obj0 1 (raw_tooth 1 (1 / 4) 0 (20 * PI / 180))
    = Ok teeth /\
    pitch_extent teeth = Ok (15 * 1 * PI).
Proof.
  destruct (@rack_pitch_extent (SketchKernel.kernel 1)
              SketchKernel.convention SketchKernel.obj0
              (raw_tooth 1 (1 / 4) 0 (20 * PI / 180)))
    as (a0 & a4 & e1 & e2 & final & _ & _ & _ & _ & _ & _ & HT & _).
  - apply sketch_fillet_joins.
  - cbn. lia.
  - apply (@tooth_chain_sharp (SketchKernel.kernel 1) SketchKernel.obj0 1
             (1 / 4)); reflexivity.
  - destruct (HT eq_refl) as [HR HE].
    eexists. split; [exact HR | exact HE].
Defined.

(** C6. In the double-helix loft the three profiles are the outline moved
    by [base], [mid] and [top]: the middle one sits at half the height and is
    shifted along the pitch axis by [tan(beta) * height / 2], the top one is
    back over the base.  So the loft is mirrored at half height: the shift
    from the middle to the top profile is the shift from the base to the
    middle profile taken backwards, and both have the same size. *)
Theorem double_helix_mirrored `{GeometryKernel} `{ToolConvention}
    (obj : Obj.t) :
  let height := Obj.height obj in
  let beta := Obj.helix_angle obj * PI / 180 in
  let base := vec 0 0 0 in
  let mid := vec 0 (tan beta * height / 2) (height / 2) in
  let top := vec 0 0 height in
  0 < height -> Obj.helix_angle obj <> 0 -> Obj.double_helix obj = true ->
  snd (generate_gear_shape obj)
  = (pol <- rack_outline obj (effective_module obj) ;;
     s <- makeLoft [translate_wire base pol; translate_wire mid pol;
                    translate_wire top pol] true true ;;
     Ok (Body s)) /\
  vz mid - vz base = vz top - vz mid /\
  vy top - vy mid = - (vy mid - vy base) /\
  Rabs (vy mid - vy base) = Rabs (vy top - vy mid) /\
  vy top = vy base.
Proof.
  cbv zeta. intros Hh Ha Hd. split.
  - rewrite generate_gear_shape_unfold. cbn [snd]. apply bind_ext. intros pol.
    unfold make_solid.
    destruct (Req_dec_T (Obj.height obj) 0); [lra|].
    destruct (Req_dec_T (Obj.helix_angle obj * PI / 180) 0) as [E|E];
      [apply (proj1 (helix_radians_zero _)) in E; contradiction|].
    rewrite Hd, translate_wire_zero. reflexivity.
  - cbn [vx vy vz]. repeat split; try lra.
    replace (0 - tan (Obj.helix_angle obj * PI / 180) * Obj.height obj / 2)
      with (- (tan (Obj.helix_angle obj * PI / 180) * Obj.height obj / 2 - 0))
      by lra.
    symmetry. apply Rabs_Ropp.
Qed.

Lemma double_helix_mirrored_witness :
  let mid := vec 0 (tan (45 * PI / 180) * 2 / 2) (2 / 2) in
  let top := vec 0 0 2 in
  Rabs (vy mid - 0) = Rabs (vy top - vy mid).
Proof.
  cbv zeta.
  destruct (@double_helix_mirrored (SketchKernel.kernel 1)
              SketchKernel.convention SketchKernel.herringbone)
    as (_ & _ & _ & HR & _).
  - cbn. lra.
  - cbn. lra.
  - reflexivity.
  - exact HR.
Defined.

(** C10. The stored angles are degrees.  The rack object gets both times
    pi / 180.  The flanks of the raw tooth have the slope
    [tan(pressure_angle * PI / 180)]: along the left flank the pitch
    coordinate grows by that much per unit of height, along the right flank
    it falls by as much.  The top profile of the single-helix loft is
    shifted by [tan(helix_angle * PI / 180) * height].  At 45 degrees the
    slope is 1. *)
Theorem angles_are_degrees `{GeometryKernel} `{ToolConvention}
    (obj : Obj.t) :
  let m := effective_module obj in
  let alpha := Obj.pressure_angle obj * PI / 180 in
  let beta := Obj.helix_angle obj * PI / 180 in
  let height := Obj.height obj in
  InvoluteRack.pressure_angle (Obj.rack (fst (generate_gear_shape obj)))
  = alpha /\
  InvoluteRack.beta (Obj.rack (fst (generate_gear_shape obj))) = beta /\
  (forall c, Obj.clearance obj = Some c ->
     exists y2 x2 y3 x3 y4 x4 y5 x5 tooth,
       tooth_profile obj m = Ok tooth /\
       nth_error tooth 1 = Some (Line (vec y2 x2 0) (vec y3 x3 0)) /\
       nth_error tooth 3 = Some (Line (vec y4 x4 0) (vec y5 x5 0)) /\
       x3 - x2 = (y3 - y2) * tan alpha /\
       x5 - x4 = - ((y5 - y4) * tan alpha)) /\
  (0 < height -> Obj.helix_angle obj <> 0 -> Obj.double_helix obj = false ->
   snd (generate_gear_shape obj)
   = (pol <- rack_outline obj m ;;
      s <- makeLoft
             [pol; translate_wire (vec 0 (tan beta * height) height) pol]
             true false ;;
      Ok (Body s))) /\
  (Obj.pressure_angle obj = 45 -> tan alpha = 1) /\
  (Obj.helix_angle obj = 45 -> tan beta = 1).
Proof.
  cbv zeta. rewrite generate_gear_shape_unfold. cbn [fst snd].
  split; [reflexivity|]. split; [reflexivity|].
  assert (T45 : forall a, a = 45 -> tan (a * PI / 180) = 1).
  { intros a ->. replace (45 * PI / 180) with (PI / 4) by field.
    apply tan_PI4. }
  split; [|split; [|split; apply T45]].
  - intros c Hc. unfold tooth_profile. rewrite Hc. cbn [getattr bind].
    do 8 eexists. eexists. split; [reflexivity|].
    unfold raw_tooth, tooth_lines, tooth_points, points_to_wire.
    cbn [map fst snd fcvec nth_error].
    split; [reflexivity|]. split; [reflexivity|].
    cbn [fst snd]. split; ring.
  - intros Hh Ha Hd. apply bind_ext. intros pol. unfold make_solid.
    destruct (Req_dec_T (Obj.height obj) 0); [lra|].
    destruct (Req_dec_T (Obj.helix_angle obj * PI / 180) 0) as [E|E];
      [apply (proj1 (helix_radians_zero _)) in E; contradiction|].
    rewrite Hd. reflexivity.
Qed.

Lemma angles_are_degrees_witness :
  tan (Obj.helix_angle SketchKernel.herringbone * PI / 180) = 1 /\
  exists tooth,
    tooth_profile SketchKernel.herringbone 1 = Ok tooth /\
    length tooth = 5%nat.
Proof.
  destruct (@angles_are_degrees (SketchKernel.kernel 1)
              SketchKernel.convention SketchKernel.herringbone)
    as (_ & _ & HT & _ & _ & HB).
  split.
  - apply HB. reflexivity.
  - destruct (HT (1 / 4) eq_refl)
      as (y2 & x2 & y3 & x3 & y4 & x4 & y5 & x5 & tooth & Ht & _).
    exists tooth. split; [exact Ht|].
    cbn in Ht. injection Ht as <-. reflexivity.
Defined.

(** ** What a build writes, and what can make it fail *)

Section State.

Context {K : GeometryKernel} {T : ToolConvention}.

Lemma assign_if_present_idem {A : Type} (v : option A) (old : A) :
  assign_if_present v (assign_if_present v old) = assign_if_present v old.
Proof. destruct v; reflexivity. Qed.

(** A rack that has just been updated is not changed by a second update
    from the same parameters. *)
Lemma update_rack_write (obj : Obj.t) (p : R) :
  update_rack (Obj.write obj (update_rack obj) p) = update_rack obj.
Proof.
  unfold update_rack, InvoluteRack._update.
  cbn [Obj.write Obj.rack Obj.module Obj.num_teeth Obj.pressure_angle
       Obj.thickness Obj.helix_angle Obj.head Obj.clearance
       Obj.properties_from_tool Obj.add_endings Obj.simplified
       InvoluteRack.clearance InvoluteRack.properties_from_tool
       InvoluteRack.add_endings InvoluteRack.simplified].
  rewrite !assign_if_present_idem. reflexivity.
Qed.

Lemma update_rack_present (o1 o2 : Obj.t) :
  same_parameters o1 o2 -> optional_present o1 ->
  update_rack o1 = update_rack o2.
Proof.
  destruct o1, o2.
  unfold same_parameters, optional_present, update_rack, InvoluteRack._update.
  cbn. intros (-> & -> & -> & -> & -> & -> & -> & -> & -> & -> & -> & ->
               & -> & ->) (Hc & Hp & Ha & Hs).
  destruct clearance0, properties_from_tool0, add_endings0, simplified0;
    try contradiction; reflexivity.
Qed.

Lemma generate_same (o1 o2 : Obj.t) :
  same_parameters o1 o2 -> update_rack o1 = update_rack o2 ->
  generate_gear_shape o1 = generate_gear_shape o2.
Proof.
  intros HP HR. rewrite !generate_gear_shape_unfold.
  unfold effective_module. rewrite HR.
  destruct o1, o2. unfold same_parameters in HP. cbn in HP.
  destruct HP as (-> & -> & -> & -> & -> & -> & -> & -> & -> & -> & -> & ->
                  & -> & ->).
  reflexivity.
Qed.

Lemma corner_raise (e1 e2 : Edge) (r : R) (e : exn) :
  corner e1 e2 r = Raise e -> 0 < r /\ make_fillet e1 e2 r = Raise e.
Proof.
  unfold corner. destruct (Rlt_dec 0 r) as [Hr|Hr]; [|discriminate].
  destruct (make_fillet e1 e2 r) as [[[a f] b]|e']; cbn [bind];
    [discriminate|].
  intros E; injection E as <-. tauto.
Qed.

Lemma fillet_tooth_raise (m rf hf : R) (l1 l2 l3 l4 l5 : Edge) (e : exn) :
  fillet_tooth m rf hf [l1; l2; l3; l4; l5] = Raise e ->
  exists e1 e2 r, 0 < r /\ make_fillet e1 e2 r = Raise e.
Proof.
  rewrite fillet_tooth_corners.
  destruct (corner l1 l2 (m * rf)) as [[[a0 f0] b1]|e0] eqn:H0;
    cbn [bind]; [|intros E; injection E as <-; eauto using corner_raise].
  destruct (corner b1 l3 (m * hf)) as [[[a1 f1] b2]|e0] eqn:H1;
    cbn [bind]; [|intros E; injection E as <-; eauto using corner_raise].
  destruct (corner b2 l4 (m * hf)) as [[[a2 f2] b3]|e0] eqn:H2;
    cbn [bind]; [|intros E; injection E as <-; eauto using corner_raise].
  destruct (corner b3 l5 (m * rf)) as [[[a3 f3] a4]|e0] eqn:H3;
    cbn [bind]; [|intros E; injection E as <-; eauto using corner_raise].
  discriminate.
Qed.

Lemma tooth_chain_raise (obj : Obj.t) (m : R) (e : exn) :
  tooth_chain obj m = Raise e ->
  (Obj.clearance obj = None /\ e = AttributeError "clearance") \/
  (exists e1 e2 r, 0 < r /\ make_fillet e1 e2 r = Raise e).
Proof.
  unfold tooth_chain, tooth_profile.
  destruct (Obj.clearance obj) as [c|]; cbn [getattr bind].
  - unfold raw_tooth, tooth_lines, tooth_points, points_to_wire.
    cbn [map fst snd].
    match goal with
    | |- context [fillet_tooth ?m ?rf ?hf ?l] =>
        destruct (fillet_tooth m rf hf l) as [slots|e0] eqn:Hs
    end; cbn [bind]; [discriminate|].
    intros E; injection E as <-. right.
    eapply fillet_tooth_raise. exact Hs.
  - intros E; injection E as <-. left. tauto.
Qed.

Lemma make_solid_raise (height beta : R) (d : bool) (pol : Wire) (e : exn) :
  make_solid height beta d pol = Raise e ->
  (exists w v, extrude w v = Raise e) \/
  (exists ws s r, makeLoft ws s r = Raise e).
Proof.
  unfold make_solid.
  destruct (Req_dec_T height 0); [discriminate|].
  destruct (Req_dec_T beta 0).
  - destruct (extrude pol (fcvec3 0 0 height)) eqn:E; cbn [bind];
      [discriminate|].
    intros E'; injection E' as <-. left. eauto.
  - destruct d.
    + match goal with
      | |- context [makeLoft ?ws ?s ?r] =>
          destruct (makeLoft ws s r) eqn:E
      end; cbn [bind]; [discriminate|].
      intros E'; injection E' as <-. right. eauto.
    + match goal with
      | |- context [makeLoft ?ws ?s ?r] =>
          destruct (makeLoft ws s r) eqn:E
      end; cbn [bind]; [discriminate|].
      intros E'; injection E' as <-. right. eauto.
Qed.

Lemma close_outline_ok (t : R) (teeth : list Wire) (p q : Pt) :
  chain_ends teeth = Ok (p, q) ->
  exists pol, close_outline t teeth = Ok pol.
Proof.
  intros HC. unfold close_outline. rewrite HC. cbn [bind]. eauto.
Qed.

(** Once the filleted chain is there, the outline can only fail for a
    missing [add_endings]. *)
Lemma rack_outline_after_chain (obj : Obj.t) (m : R) (chain : list Edge) :
  tooth_chain obj m = Ok chain ->
  match Obj.add_endings obj with
  | Some _ => exists pol, rack_outline obj m = Ok pol
  | None => rack_outline obj m = Raise (AttributeError "add_endings")
  end.
Proof.
  intros Hchain.
  destruct (tooth_chain_shape _ _ _ Hchain)
    as (c & a0 & mid & a4 & _ & -> & Hmid & _).
  destruct (nonempty_ends mid) as (e1 & rest & e2 & init & E1 & E2); [lia|].
  destruct (tooth_unit_ok m a0 a4 e1 e2 mid rest init E1 E2)
    as (G1 & G2 & G3 & GU).
  set (n := Z.to_nat (Obj.num_teeth obj - 1)).
  set (final := map (fun k => replica k m (mid ++ [bridge m e1 e2]))
                  (seq 0 n) ++ [replica n m mid]).
  assert (HR : rack_teeth obj m (a0 :: mid ++ [a4])
               = (add_endings <- getattr "add_endings" (Obj.add_endings obj) ;;
                  endings add_endings m (Obj.num_teeth obj)
                    (a0 :: mid ++ [a4]) final)).
  { unfold rack_teeth, tiled_teeth. rewrite GU. cbn [bind].
    rewrite tiled_as_replicas, drop_trailing_replicas. reflexivity. }
  assert (GL : py_get_back (a0 :: mid ++ [a4]) 1 = Ok a4)
    by (apply (py_get_back_last (a0 :: mid))).
  unfold rack_outline. rewrite Hchain. cbn [bind]. rewrite HR.
  destruct (Obj.add_endings obj) as [[|]|]; cbn [getattr bind].
  - unfold endings. cbn [py_get nth_error bind]. rewrite GL. cbn [bind].
    pose proof (chain_ends_capped a0
                  (translate
                     (vec 0 (PI * m * IZR (Obj.num_teeth obj - 1)) 0) a4)
                  final) as HC.
    exact (close_outline_ok _ _ _ _ HC).
  - unfold endings.
    exact (close_outline_ok _ _ _ _
             (chain_ends_open m n mid rest init e1 e2
                (bridge m e1 e2) E1 E2)).
  - reflexivity.
Qed.

(** Everything a build can raise. *)
Lemma build_raise (obj : Obj.t) (e : exn) :
  snd (generate_gear_shape obj) = Raise e ->
  (Obj.clearance obj = None /\ e = AttributeError "clearance") \/
  (exists e1 e2 r, 0 < r /\ make_fillet e1 e2 r = Raise e) \/
  (Obj.add_endings obj = None /\ e = AttributeError "add_endings") \/
  (exists w v, extrude w v = Raise e) \/
  (exists ws s r, makeLoft ws s r = Raise e).
Proof.
  rewrite generate_gear_shape_unfold. cbn [snd].
  set (m := effective_module obj).
  destruct (tooth_chain obj m) as [chain|e0] eqn:Hchain.
  - pose proof (rack_outline_after_chain obj m chain Hchain) as HO.
    destruct (Obj.add_endings obj) as [b|].
    + destruct HO as [pol ->]. cbn [bind]. intros E.
      apply make_solid_raise in E. tauto.
    + rewrite HO. cbn [bind]. intros E; injection E as <-. tauto.
  - assert (HO : rack_outline obj m = Raise e0)
      by (unfold rack_outline; rewrite Hchain; reflexivity).
    rewrite HO. cbn [bind]. intros E; injection E as <-.
    apply tooth_chain_raise in Hchain. tauto.
Qed.

End State.

Lemma herringbone_refused :
  snd (@generate_gear_shape (SketchKernel.kernel 0) SketchKernel.convention
         SketchKernel.herringbone)
  = Raise GeometricConstraintError.
Proof.
  rewrite generate_gear_shape_unfold. cbn [snd].
  rewrite effective_module_plain by reflexivity.
  unfold rack_outline, tooth_chain, tooth_profile.
  cbn [getattr bind SketchKernel.herringbone Obj.clearance Obj.head
       Obj.pressure_angle Obj.head_fillet Obj.root_fillet Obj.module].
  unfold raw_tooth, tooth_lines, tooth_points, points_to_wire.
  cbn [map fst snd]. rewrite fillet_tooth_corners.
  rewrite sketch_corner_refused by lra. reflexivity.
Qed.

(** C8, as the spec words it, fails: the build of the herringbone rack also
    changes the rack object, whose module was 5 and becomes 1. *)
Lemma build_writes_more_than_pitch :
  ~ writes_pitch_only SketchKernel.herringbone
      (fst (@generate_gear_shape (SketchKernel.kernel 1)
              SketchKernel.convention SketchKernel.herringbone)).
Proof.
  intros [p E]. apply (f_equal Obj.rack) in E.
  apply (f_equal InvoluteRack.m) in E.
  rewrite generate_gear_shape_unfold in E. cbn in E. lra.
Qed.

(** C8, amended. A build writes two properties of the feature object: the
    rack object, which is brought up to date with the parameters, and
    [transverse_pitch]; every parameter keeps its value.  A second build
    on the object the first one left returns the same and leaves the object
    as it is.  When the four optional properties are there, two objects with
    the same parameters are built alike, whatever their rack objects and
    pitches were before. *)
Theorem build_writes_rack_and_pitch `{GeometryKernel} `{ToolConvention}
    (obj : Obj.t) :
  fst (generate_gear_shape obj)
  = Obj.write obj (update_rack obj) (effective_module obj * PI) /\
  same_parameters obj (fst (generate_gear_shape obj)) /\
  generate_gear_shape (fst (generate_gear_shape obj))
  = generate_gear_shape obj /\
  (forall obj2,
      same_parameters obj obj2 -> optional_present obj ->
      generate_gear_shape obj2 = generate_gear_shape obj).
Proof.
  assert (E : fst (generate_gear_shape obj)
              = Obj.write obj (update_rack obj) (effective_module obj * PI))
    by (rewrite generate_gear_shape_unfold; reflexivity).
  assert (P : same_parameters obj (fst (generate_gear_shape obj)))
    by (rewrite E; unfold same_parameters; cbn; tauto).
  split; [exact E|]. split; [exact P|]. split.
  - apply generate_same.
    + rewrite E. unfold same_parameters. cbn. tauto.
    + rewrite E. apply update_rack_write.
  - intros obj2 HP HO. symmetry. apply generate_same; [exact HP|].
    apply update_rack_present; assumption.
Qed.

Lemma build_writes_rack_and_pitch_witness :
  let K := SketchKernel.kernel 1 in
  let T := SketchKernel.convention in
  let obj := SketchKernel.herringbone in
  let obj2 := Obj.write obj (@update_rack obj) 7 in
  @generate_gear_shape K T obj2 = @generate_gear_shape K T obj.
Proof.
  cbv zeta.
  destruct (@build_writes_rack_and_pitch (SketchKernel.kernel 1)
              SketchKernel.convention SketchKernel.herringbone)
    as (_ & _ & _ & HS).
  apply HS.
  - unfold same_parameters. cbn. tauto.
  - unfold optional_present. cbn. repeat split; discriminate.
Defined.

(** C9, as the spec words it, fails: with a kernel that refuses the root
    fillet the build of the herringbone rack raises, and the pitch stored
    before, 0, has already been replaced. *)
Lemma failed_build_overwrites_pitch :
  let res := @generate_gear_shape (SketchKernel.kernel 0)
               SketchKernel.convention SketchKernel.herringbone in
  snd res = Raise GeometricConstraintError /\
  Obj.transverse_pitch SketchKernel.herringbone = 0 /\
  Obj.transverse_pitch (fst res) = PI /\
  fst res <> SketchKernel.herringbone.
Proof.
  cbv zeta. split; [apply herringbone_refused|]. split; [reflexivity|].
  assert (E : Obj.transverse_pitch
                (fst (@generate_gear_shape (SketchKernel.kernel 0)
                        SketchKernel.convention SketchKernel.herringbone))
              = PI).
  { rewrite generate_gear_shape_unfold. cbn [fst Obj.write Obj.transverse_pitch].
    rewrite effective_module_plain by reflexivity. cbn. lra. }
  split; [exact E|].
  intros HF. rewrite HF in E. cbn in E. pose proof PI_RGT_0. lra.
Qed.

(** C9, amended. A build that raises returns no shape, and what it raises is
    what the kernel raised in a fillet, an extrusion or a loft, or the
    [AttributeError] of a missing [clearance] or [add_endings]; the builder
    raises nothing else of its own and catches nothing.  The feature object
    is then as after a build that succeeds: the rack object is up to date and
    [transverse_pitch] holds the new pitch, both written before anything can
    fail; the parameters are untouched.  Building again raises the same. *)
Theorem failed_build_keeps_writes `{GeometryKernel} `{ToolConvention}
    (obj : Obj.t) (e : exn) :
  snd (generate_gear_shape obj) = Raise e ->
  (forall s, snd (generate_gear_shape obj) <> Ok s) /\
  ((Obj.clearance obj = None /\ e = AttributeError "clearance") \/
   (exists e1 e2 r, 0 < r /\ make_fillet e1 e2 r = Raise e) \/
   (Obj.add_endings obj = None /\ e = AttributeError "add_endings") \/
   (exists w v, extrude w v = Raise e) \/
   (exists ws s r, makeLoft ws s r = Raise e)) /\
  fst (generate_gear_shape obj)
  = Obj.write obj (update_rack obj) (effective_module obj * PI) /\
  Obj.transverse_pitch (fst (generate_gear_shape obj))
  = effective_module obj * PI /\
  same_parameters obj (fst (generate_gear_shape obj)) /\
  snd (generate_gear_shape (fst (generate_gear_shape obj))) = Raise e.
Proof.
  intros HR.
  assert (E : fst (generate_gear_shape obj)
              = Obj.write obj (update_rack obj) (effective_module obj * PI))
    by (rewrite generate_gear_shape_unfold; reflexivity).
  split; [intros s Hs; rewrite Hs in HR; discriminate|].
  split; [apply build_raise; exact HR|].
  split; [exact E|].
  split; [rewrite E; reflexivity|].
  split; [rewrite E; unfold same_parameters; cbn; tauto|].
  rewrite <- HR. f_equal. apply generate_same.
  - rewrite E. unfold same_parameters. cbn. tauto.
  - rewrite E. apply update_rack_write.
Qed.

Lemma failed_build_keeps_writes_witness :
  Obj.transverse_pitch
    (fst (@generate_gear_shape (SketchKernel.kernel 0)
            SketchKernel.convention SketchKernel.herringbone))
  = @effective_module SketchKernel.convention SketchKernel.herringbone * PI.
Proof.
  destruct (@failed_build_keeps_writes (SketchKernel.kernel 0)
              SketchKernel.convention SketchKernel.herringbone
              GeometricConstraintError herringbone_refused)
    as (_ & _ & _ & HP & _).
  exact HP.
Defined.

(** ** Properties that are missing from an older document *)

(** X1. [clearance] is read without a guard (source line 219) although the
    copy to the rack object is guarded (lines 207-208): on an object without
    the property the build raises [AttributeError], whatever the kernel and
    the other parameters are.  By then the pitch has been written, and the
    rack object has kept the clearance it had. *)
Theorem build_without_clearance `{GeometryKernel} `{ToolConvention}
    (obj : Obj.t) :
  Obj.clearance obj = None ->
  snd (generate_gear_shape obj) = Raise (AttributeError "clearance") /\
  Obj.transverse_pitch (fst (generate_gear_shape obj))
  = effective_module obj * PI /\
  InvoluteRack.clearance (Obj.rack (fst (generate_gear_shape obj)))
  = InvoluteRack.clearance (Obj.rack obj).
Proof.
  intros Hc. rewrite generate_gear_shape_unfold. cbn [fst snd].
  split; [|split].
  - unfold rack_outline, tooth_chain, tooth_profile. rewrite Hc. reflexivity.
  - reflexivity.
  - cbn [Obj.write Obj.rack]. unfold update_rack, InvoluteRack._update.
    cbn [InvoluteRack.clearance]. rewrite Hc. reflexivity.
Qed.

Lemma build_without_clearance_witness :
  snd (@generate_gear_shape (SketchKernel.kernel 1) SketchKernel.convention
         Examples.no_clearance)
  = Raise (AttributeError "clearance").
Proof.
  apply (@build_without_clearance (SketchKernel.kernel 1)
           SketchKernel.convention Examples.no_clearance).
  reflexivity.
Defined.

(** X2. [add_endings] is read without a guard as well (source line 270):
    on an object without it, a build whose fillets succeed raises
    [AttributeError] after the teeth have been tiled. *)
Theorem build_without_add_endings `{GeometryKernel} `{ToolConvention}
    (obj : Obj.t) (chain : list Edge) :
  Obj.add_endings obj = None ->
  tooth_chain obj (effective_module obj) = Ok chain ->
  snd (generate_gear_shape obj) = Raise (AttributeError "add_endings") /\
  InvoluteRack.add_endings (Obj.rack (fst (generate_gear_shape obj)))
  = InvoluteRack.add_endings (Obj.rack obj).
Proof.
  intros Ha Hc. rewrite generate_gear_shape_unfold. cbn [fst snd]. split.
  - pose proof (rack_outline_after_chain obj _ chain Hc) as HO.
    rewrite Ha in HO. rewrite HO. reflexivity.
  - cbn [Obj.write Obj.rack]. unfold update_rack, InvoluteRack._update.
    cbn [InvoluteRack.add_endings]. rewrite Ha. reflexivity.
Qed.

Lemma build_without_add_endings_witness :
  snd (@generate_gear_shape (SketchKernel.kernel 1) SketchKernel.convention
         Examples.no_add_endings)
  = Raise (AttributeError "add_endings").
Proof.
  apply (@build_without_add_endings (SketchKernel.kernel 1)
           SketchKernel.convention Examples.no_add_endings
           (raw_tooth 1 (1 / 4) 0 (20 * PI / 180))).
  - reflexivity.
  - apply (@tooth_chain_sharp (SketchKernel.kernel 1) Examples.no_add_endings
             1 (1 / 4)); reflexivity.
Defined.

(** X3. [properties_from_tool] is only ever read under its guard (source
    lines 209-210): on an object without it the build goes through with the
    flag the rack object has kept, and returns and writes what it would for
    the same object with the property set to that flag. *)
Theorem build_without_properties_from_tool `{GeometryKernel} `{ToolConvention}
    (obj : Obj.t) :
  Obj.properties_from_tool obj = None ->
  let kept := InvoluteRack.properties_from_tool (Obj.rack obj) in
  let obj' := with_properties_from_tool obj (Some kept) in
  snd (generate_gear_shape obj) = snd (generate_gear_shape obj') /\
  Obj.rack (fst (generate_gear_shape obj))
  = Obj.rack (fst (generate_gear_shape obj')) /\
  Obj.transverse_pitch (fst (generate_gear_shape obj))
  = Obj.transverse_pitch (fst (generate_gear_shape obj')).
Proof.
  intros Hp. cbv zeta.
  assert (HR : update_rack
                 (with_properties_from_tool obj
                    (Some (InvoluteRack.properties_from_tool (Obj.rack obj))))
               = update_rack obj).
  { unfold update_rack, InvoluteRack._update, with_properties_from_tool.
    cbn [Obj.module Obj.num_teeth Obj.pressure_angle Obj.thickness
         Obj.helix_angle Obj.head Obj.clearance Obj.properties_from_tool
         Obj.add_endings Obj.simplified Obj.rack].
    rewrite Hp. reflexivity. }
  rewrite !generate_gear_shape_unfold. unfold effective_module.
  rewrite HR. cbn [fst snd Obj.write Obj.rack Obj.transverse_pitch].
  repeat split; reflexivity.
Qed.

Lemma build_without_properties_from_tool_witness :
  snd (@generate_gear_shape (SketchKernel.kernel 1) SketchKernel.convention
         Examples.no_properties_from_tool)
  = snd (@generate_gear_shape (SketchKernel.kernel 1) SketchKernel.convention
           (with_properties_from_tool Examples.no_properties_from_tool
              (Some false))).
Proof.
  apply (@build_without_properties_from_tool (SketchKernel.kernel 1)
           SketchKernel.convention Examples.no_properties_from_tool).
  reflexivity.
Defined.

(** X4. [simplified] is copied to the rack object and used nowhere else
    (source lines 213-214): with [properties_from_tool] off, setting,
    clearing or removing it changes neither what the build returns nor the
    pitch it writes. *)
Theorem simplified_is_not_drawn `{GeometryKernel} `{ToolConvention}
    (obj : Obj.t) (v : option bool) :
  Obj.properties_from_tool obj = Some false ->
  snd (generate_gear_shape (with_simplified obj v))
  = snd (generate_gear_shape obj) /\
  Obj.transverse_pitch (fst (generate_gear_shape (with_simplified obj v)))
  = Obj.transverse_pitch (fst (generate_gear_shape obj)).
Proof.
  intros Hp. rewrite !generate_gear_shape_unfold.
  rewrite (effective_module_plain obj Hp).
  rewrite (effective_module_plain (with_simplified obj v) Hp).
  cbn [fst snd Obj.write Obj.transverse_pitch].
  split; reflexivity.
Qed.

Lemma simplified_is_not_drawn_witness :
  snd (@generate_gear_shape (SketchKernel.kernel 1) SketchKernel.convention
         (with_simplified SketchKernel.herringbone (Some true)))
  = snd (@generate_gear_shape (SketchKernel.kernel 1) SketchKernel.convention
           SketchKernel.herringbone).
Proof.
  apply (@simplified_is_not_drawn (SketchKernel.kernel 1)
           SketchKernel.convention SketchKernel.herringbone (Some true)).
  reflexivity.
Defined.

(** ** Loading an older document *)

(** X5. [onDocumentRestored] moves the value of the old property [beta] to
    [helix_angle].  Whenever it goes through, the object has no [beta]
    afterwards, its helix angle is the old [beta] if there was one and is
    untouched if there was none, everything else is as it was, and
    restoring the result once more changes nothing.  It goes through on
    every object that does not hold both names. *)
Theorem restore_renames_beta {O : Type} (obj : Restore.t O) :
  (Restore.beta obj = None \/ Restore.helix_angle obj = None ->
   exists obj', Restore.onDocumentRestored obj = Some obj') /\
  forall obj',
    Restore.onDocumentRestored obj = Some obj' ->
    Restore.beta obj' = None /\
    Restore.helix_angle obj'
    = match Restore.beta obj with
      | Some b => Some b
      | None => Restore.helix_angle obj
      end /\
    Restore.others obj' = Restore.others obj /\
    Restore.onDocumentRestored obj' = Some obj'.
Proof.
  destruct obj as [b a o]. unfold Restore.onDocumentRestored,
    Restore.addProperty_helix_angle, Restore.set_helix_angle,
    Restore.removeProperty_beta.
  cbn [Restore.beta Restore.helix_angle Restore.others]. split.
  - intros [-> | ->]; [eauto|]. destruct b; eauto.
  - intros obj'. destruct b as [b|].
    + destruct a as [a|]; [discriminate|].
      intros E; injection E as <-. cbn. tauto.
    + intros E; injection E as <-. cbn. tauto.
Qed.

Lemma restore_renames_beta_witness :
  Restore.onDocumentRestored Examples.old_document
  = Some (Restore.mk None (Some 15) tt).
Proof.
  destruct (restore_renames_beta Examples.old_document) as [HE HS].
  destruct HE as [obj' E]; [right; reflexivity|].
  destruct (HS obj' E) as (Hb & Ha & Ho & _).
  rewrite E. destruct obj' as [b a o]. cbn in Hb, Ha, Ho.
  rewrite Hb, Ha. destruct o. reflexivity.
Defined.

(** ** The geometry of the raw tooth *)

(** X6. The tooth is the mirror image of itself in its centre line, and
    its flanks are the lines through the points [-m*PI/4] and [m*PI/4] of
    the reference line (height 0) that lean by the pressure angle.  So at
    every height at which both flanks are met the tooth is
    [m*PI/2 - 2*height*tan(alpha)] thick: half a pitch on the reference
    line, whatever head and clearance are. *)
Theorem flanks_meet_the_reference_line (m c h alpha : R) :
  let '(p1, p2, p3, p4, p5, p6) := tooth_points m c h alpha in
  p6 = mirror p1 /\ p5 = mirror p2 /\ p4 = mirror p3 /\
  (forall t,
      snd (along p2 p3 t) = - m * PI / 4 + fst (along p2 p3 t) * tan alpha) /\
  (forall t,
      snd (along p4 p5 t) = m * PI / 4 - fst (along p4 p5 t) * tan alpha) /\
  (forall s t,
      fst (along p2 p3 s) = fst (along p4 p5 t) ->
      snd (along p4 p5 t) - snd (along p2 p3 s)
      = m * PI / 2 - 2 * fst (along p2 p3 s) * tan alpha) /\
  (forall s t,
      fst (along p2 p3 s) = 0 -> fst (along p4 p5 t) = 0 ->
      snd (along p4 p5 t) - snd (along p2 p3 s) = PI * m / 2).
Proof.
  unfold tooth_points, mirror, along. cbn [fst snd].
  assert (F2 : forall t,
             - m * PI / 4 + - m * (1 + c) * tan alpha
             + t * (- m * PI / 4 + m * (1 + h) * tan alpha
                    - (- m * PI / 4 + - m * (1 + c) * tan alpha))
             = - m * PI / 4
               + (- m * (1 + c) + t * (m * (1 + h) - - m * (1 + c)))
                 * tan alpha)
    by (intros; ring).
  assert (F4 : forall t,
             - (- m * PI / 4 + m * (1 + h) * tan alpha)
             + t * (- (- m * PI / 4 + - m * (1 + c) * tan alpha)
                    - - (- m * PI / 4 + m * (1 + h) * tan alpha))
             = m * PI / 4
               - (m * (1 + h) + t * (- m * (1 + c) - m * (1 + h)))
                 * tan alpha)
    by (intros; field).
  split; [reflexivity|]. split; [reflexivity|]. split; [reflexivity|].
  split; [exact F2|]. split; [exact F4|]. split.
  - intros s t E. rewrite F2, F4, <- E. field.
  - intros s t E2 E4. rewrite F2, F4, E2, E4. field.
Qed.

Lemma flanks_meet_the_reference_line_witness :
  let alpha := 20 * PI / 180 in
  let p2 := (- 1 * (1 + 1 / 4), - 1 * PI / 4 + - 1 * (1 + 1 / 4) * tan alpha) in
  let p3 := (1 * (1 + 0), - 1 * PI / 4 + 1 * (1 + 0) * tan alpha) in
  snd (along (mirror p3) (mirror p2) (4 / 9)) - snd (along p2 p3 (5 / 9))
  = PI * 1 / 2.
Proof.
  cbv zeta.
  pose proof (flanks_meet_the_reference_line 1 (1 / 4) 0 (20 * PI / 180))
    as T.
  unfold tooth_points in T. cbv zeta in T.
  destruct T as (_ & _ & _ & _ & _ & _ & T).
  apply T; unfold along; cbn [fst snd]; field.
Defined.

(** X7. Without fillets the tooth unit is the two flanks and the top land,
    closed by the bridging edge: the root land up to the next tooth.  The
    root land is level at root height, it is as long as the first and the
    last edge of the raw tooth together, and the width of the tooth at the
    root and the root land add up to one pitch. *)
Theorem root_land_closes_the_pitch (m c h alpha : R) :
  let '(p1, p2, p3, p4, p5, p6) := tooth_points m c h alpha in
  let land := Line (fcvec p5) (fcvec (padd p2 (0, PI * m))) in
  tooth_unit m (raw_tooth m c h alpha)
  = Ok [Line (fcvec p2) (fcvec p3); Line (fcvec p3) (fcvec p4);
        Line (fcvec p4) (fcvec p5); land] /\
  vx (firstVertex land) = - m * (1 + c) /\
  vx (lastVertex land) = - m * (1 + c) /\
  vy (lastVertex land) - vy (firstVertex land)
  = (snd p2 - snd p1) + (snd p6 - snd p5) /\
  vy (lastVertex land) - vy (firstVertex land)
  = PI * m / 2 - 2 * (m * (1 + c)) * tan alpha /\
  (snd p5 - snd p2) + (vy (lastVertex land) - vy (firstVertex land))
  = PI * m.
Proof.
  unfold raw_tooth, tooth_lines, tooth_points, points_to_wire.
  cbn [map fst snd]. cbv zeta.
  split; [reflexivity|].
  cbn [firstVertex lastVertex fcvec padd vx vy fst snd].
  repeat split; field.
Qed.

(** X8. A build that gets past the fillets draws at least one tooth: the
    loop of source lines 263-266 adds [num_teeth - 1] copies to the first
    tooth and none when that number is not positive, so the teeth are
    [max(1, num_teeth)] in number, before and after the last one loses its
    bridging edge. *)
Theorem at_least_one_tooth `{GeometryKernel} (obj : Obj.t) (m : R)
    (chain : list Edge) :
  tooth_chain obj m = Ok chain ->
  exists teeth final,
    tiled_teeth (Obj.num_teeth obj) m chain = Ok teeth /\
    drop_trailing teeth = Ok final /\
    length teeth = Z.to_nat (Z.max 1 (Obj.num_teeth obj)) /\
    length final = Z.to_nat (Z.max 1 (Obj.num_teeth obj)).
Proof.
  intros Hchain.
  destruct (tooth_chain_shape _ _ _ Hchain)
    as (c & a0 & mid & a4 & _ & -> & Hmid & _).
  destruct (nonempty_ends mid) as (e1 & rest & e2 & init & E1 & E2); [lia|].
  destruct (tooth_unit_ok m a0 a4 e1 e2 mid rest init E1 E2)
    as (_ & _ & _ & GU).
  set (n := Z.to_nat (Obj.num_teeth obj - 1)).
  exists (map (fun k => replica k m (mid ++ [bridge m e1 e2])) (seq 0 (S n))),
    (map (fun k => replica k m (mid ++ [bridge m e1 e2])) (seq 0 n)
       ++ [replica n m mid]).
  split; [unfold tiled_teeth; rewrite GU; cbn [bind]; f_equal;
          apply tiled_as_replicas|].
  split; [apply drop_trailing_replicas|].
  split.
  - rewrite length_map, length_seq. unfold n. lia.
  - rewrite length_app, length_map, length_seq. cbn [length]. unfold n. lia.
Qed.

Lemma at_least_one_tooth_witness :
  exists teeth,
    tiled_teeth 15 1 (raw_tooth 1 (1 / 4) 0 (20 * PI / 180)) = Ok teeth /\
    length teeth = 15%nat.
Proof.
  destruct (@at_least_one_tooth (SketchKernel.kernel 1) SketchKernel.obj0
              1 (raw_tooth 1 (1 / 4) 0 (20 * PI / 180)))
    as (teeth & final & HT & _ & HL & _).
  - apply (@tooth_chain_sharp (SketchKernel.kernel 1) SketchKernel.obj0
             1 (1 / 4)); reflexivity.
  - exists teeth. split; [exact HT | exact HL].
Defined.

(** X9. Without fillets the outline is drawn without the kernel: when both
    fillet factors are 0 and [clearance] and [add_endings] are there, the
    outline exists and is the same for every kernel, and at height 0 the
    build returns it. *)
Theorem sharp_outline_needs_no_kernel (K1 K2 : GeometryKernel)
    `{ToolConvention} (obj : Obj.t) (c : R) (b : bool) :
  Obj.clearance obj = Some c ->
  Obj.add_endings obj = Some b ->
  Obj.root_fillet obj = 0 ->
  Obj.head_fillet obj = 0 ->
  exists pol,
    @rack_outline K1 obj (effective_module obj) = Ok pol /\
    @rack_outline K2 obj (effective_module obj) = Ok pol /\
    (Obj.height obj = 0 ->
     snd (@generate_gear_shape K1 _ obj) = Ok (Outline pol)).
Proof.
  intros Hc Ha Hr Hh.
  set (m := effective_module obj).
  pose proof (@tooth_chain_sharp K1 obj m c Hc Hr Hh) as C1.
  pose proof (@tooth_chain_sharp K2 obj m c Hc Hr Hh) as C2.
  pose proof (@rack_outline_after_chain K1 obj m _ C1) as O1.
  rewrite Ha in O1. destruct O1 as [pol O1].
  exists pol. split; [exact O1|]. split.
  - rewrite <- O1. unfold rack_outline. rewrite C1, C2. reflexivity.
  - intros H0. rewrite generate_gear_shape_unfold. cbn [snd]. fold m.
    rewrite O1. cbn [bind]. unfold make_solid.
    destruct (Req_dec_T (Obj.height obj) 0); [reflexivity | contradiction].
Qed.

Lemma sharp_outline_needs_no_kernel_witness :
  exists pol,
    @rack_outline (SketchKernel.kernel 0) SketchKernel.obj0 1 = Ok pol /\
    @rack_outline (SketchKernel.kernel 1) SketchKernel.obj0 1 = Ok pol.
Proof.
  destruct (@sharp_outline_needs_no_kernel (SketchKernel.kernel 0)
              (SketchKernel.kernel 1) SketchKernel.convention
              SketchKernel.obj0 (1 / 4) true)
    as (pol & H1 & H2 & _); try reflexivity.
  exists pol. split; [exact H1 | exact H2].
Defined.

(** X10. The hand of the helix is the sign of the helix angle: with
    [properties_from_tool] off, the build for the opposite angle lofts
    through the same outline, and the skewed profile is shifted by the same
    amount to the other side, in the single and in the double helix. *)
Theorem opposite_helix_angle_mirrors_the_skew
    `{GeometryKernel} `{ToolConvention} (obj : Obj.t) :
  let m := effective_module obj in
  let height := Obj.height obj in
  let beta := Obj.helix_angle obj * PI / 180 in
  let obj' := with_helix_angle obj (- Obj.helix_angle obj) in
  Obj.properties_from_tool obj = Some false ->
  0 < height -> Obj.helix_angle obj <> 0 ->
  snd (generate_gear_shape obj')
  = (pol <- rack_outline obj m ;;
     s <- (if Obj.double_helix obj
           then makeLoft
                  [pol;
                   translate_wire
                     (vec 0 (- (tan beta * height / 2)) (height / 2)) pol;
                   translate_wire (vec 0 0 height) pol]
                  true true
           else makeLoft
                  [pol;
                   translate_wire (vec 0 (- (tan beta * height)) height) pol]
                  true false) ;;
     Ok (Body s)).
Proof.
  cbv zeta. intros Hp Hh Ha. rewrite generate_gear_shape_unfold. cbn [snd].
  rewrite (effective_module_plain obj Hp).
  rewrite (effective_module_plain (with_helix_angle obj _) Hp).
  cbn [with_helix_angle Obj.module Obj.height Obj.helix_angle
       Obj.double_helix].
  apply bind_ext. intros pol. unfold make_solid.
  destruct (Req_dec_T (Obj.height obj) 0); [lra|].
  destruct (Req_dec_T (- Obj.helix_angle obj * PI / 180) 0) as [E|E].
  { apply (proj1 (helix_radians_zero _)) in E. lra. }
  replace (- Obj.helix_angle obj * PI / 180)
    with (- (Obj.helix_angle obj * PI / 180)) by field.
  rewrite tan_neg.
  replace (- tan (Obj.helix_angle obj * PI / 180) * Obj.height obj / 2)
    with (- (tan (Obj.helix_angle obj * PI / 180) * Obj.height obj / 2))
    by field.
  replace (- tan (Obj.helix_angle obj * PI / 180) * Obj.height obj)
    with (- (tan (Obj.helix_angle obj * PI / 180) * Obj.height obj))
    by ring.
  destruct (Obj.double_helix obj); reflexivity.
Qed.

Lemma opposite_helix_angle_mirrors_the_skew_witness :
  let K := SketchKernel.kernel 1 in
  let T := SketchKernel.convention in
  snd (@generate_gear_shape K T
         (with_helix_angle SketchKernel.herringbone (- 45)))
  = (pol <- @rack_outline K SketchKernel.herringbone 1 ;;
     s <- makeLoft
            [pol;
             translate_wire
               (vec 0 (- (tan (45 * PI / 180) * 2 / 2)) (2 / 2)) pol;
             translate_wire (vec 0 0 2) pol]
            true true ;;
     Ok (Body s)).
Proof.
  cbv zeta.
  apply (@opposite_helix_angle_mirrors_the_skew (SketchKernel.kernel 1)
           SketchKernel.convention SketchKernel.herringbone).
  - reflexivity.
  - cbn. lra.
  - cbn. lra.
Defined.

(** ** The outline as a closed loop *)

Section Closure.

Lemma wire_first_app (a b : Wire) :
  wire_first (a ++ b)
  = match wire_first a with Some v => Some v | None => wire_first b end.
Proof. destruct a; reflexivity. Qed.

Lemma wire_last_app (a b : Wire) :
  wire_last (a ++ b)
  = match wire_last b with Some v => Some v | None => wire_last a end.
Proof.
  induction a as [|e a IH]; cbn [app].
  - destruct (wire_last b); reflexivity.
  - cbn [wire_last]. destruct a as [|e' a]; cbn [app].
    + destruct b as [|e' b]; [reflexivity|].
      destruct (wire_last (e' :: b)) eqn:E; [reflexivity|].
      exfalso. clear IH. revert e' E. induction b as [|x b IHb]; intros e' E.
      * discriminate.
      * cbn [wire_last] in E. eauto.
    + exact IH.
Qed.

Lemma wire_last_snoc (w : Wire) (e : Edge) :
  wire_last (w ++ [e]) = Some (lastVertex e).
Proof. rewrite wire_last_app. reflexivity. Qed.

Lemma chained_app (a b : Wire) :
  chained (a ++ b) <->
  chained a /\ chained b /\
  match wire_last a, wire_first b with
  | Some u, Some v => u = v
  | _, _ => True
  end.
Proof.
  induction a as [|e a IH]; cbn [app].
  - cbn. tauto.
  - destruct a as [|e' a].
    + cbn [app chained wire_last]. destruct b as [|x b]; cbn; tauto.
    + cbn [app] in *. cbn [chained wire_last] in *.
      rewrite IH. tauto.
Qed.

Lemma chained_translate (v : Vector) (w : Wire) :
  chained w -> chained (translate_wire v w).
Proof.
  induction w as [|e w IH]; [trivial|].
  destruct w as [|e' w]; [trivial|].
  cbn [translate_wire map chained] in *. intros [E C]. split.
  - rewrite firstVertex_translate, lastVertex_translate, E. reflexivity.
  - apply IH. exact C.
Qed.

Lemma wire_first_translate (v : Vector) (w : Wire) :
  wire_first (translate_wire v w)
  = option_map (fun p => vadd p v) (wire_first w).
Proof.
  destruct w; cbn; [reflexivity|]. rewrite firstVertex_translate.
  reflexivity.
Qed.

Lemma wire_last_translate (v : Vector) (w : Wire) :
  wire_last (translate_wire v w)
  = option_map (fun p => vadd p v) (wire_last w).
Proof.
  induction w as [|e w IH]; [reflexivity|].
  destruct w as [|e' w].
  - cbn. rewrite lastVertex_translate. reflexivity.
  - cbn [translate_wire map wire_last] in *. exact IH.
Qed.

Lemma fcvec_xy (v : Vector) : vz v = 0 -> fcvec (xy v) = v.
Proof. destruct v as [x y z]. cbn. intros ->. reflexivity. Qed.

Variable m : R.

Lemma shift_succ (k : nat) :
  vadd (vec 0 (PI * m) 0) (vec 0 (INR k * (PI * m)) 0)
  = vec 0 (INR (S k) * (PI * m)) 0.
Proof. unfold vadd. cbn [vx vy vz]. rewrite S_INR. f_equal; ring. Qed.

Lemma bridge_ends (e1 e2 : Edge) :
  vz (firstVertex e1) = 0 -> vz (lastVertex e2) = 0 ->
  firstVertex (bridge m e1 e2) = lastVertex e2 /\
  lastVertex (bridge m e1 e2) = vadd (firstVertex e1) (vec 0 (PI * m) 0).
Proof.
  intros H1 H2. unfold bridge. cbn [firstVertex lastVertex]. split.
  - apply fcvec_xy. exact H2.
  - destruct (firstVertex e1) as [x y z]. cbn [vz] in H1. subst z.
    unfold vadd, fcvec, padd, xy. cbn [fst snd vx vy vz].
    rewrite !Rplus_0_r. reflexivity.
Qed.

Lemma length_replica (k : nat) (w : Wire) : length (replica k m w) = length w.
Proof. rewrite replica_translate. apply length_map. Qed.

(** The teeth after the loop, from copy [s] on: one chain from the start of
    the first copy to the end of the last. *)
Lemma teeth_linked (mid rest init : Wire) (e1 e2 b : Edge) :
  mid = e1 :: rest -> mid = init ++ [e2] -> chained mid ->
  firstVertex b = lastVertex e2 ->
  lastVertex b = vadd (firstVertex e1) (vec 0 (PI * m) 0) ->
  forall n s,
    let L := map (fun k => replica k m (mid ++ [b])) (seq s n)
               ++ [replica (s + n) m mid] in
    chained (concat L) /\
    wire_first (concat L)
    = Some (vadd (firstVertex e1) (vec 0 (INR s * (PI * m)) 0)) /\
    wire_last (concat L)
    = Some (vadd (lastVertex e2) (vec 0 (INR (s + n) * (PI * m)) 0)) /\
    length (concat L) = (n * S (length mid) + length mid)%nat.
Proof.
  intros E1 E2 Hc Hb1 Hb2.
  assert (F : forall k w tl, w = e1 :: tl ->
              wire_first (replica k m w)
              = Some (vadd (firstVertex e1) (vec 0 (INR k * (PI * m)) 0))).
  { intros k w tl ->. rewrite replica_translate, wire_first_translate.
    reflexivity. }
  assert (WL : wire_last mid = Some (lastVertex e2))
    by (rewrite E2; apply wire_last_snoc).
  assert (Hu : chained (mid ++ [b])).
  { apply chained_app. split; [exact Hc|]. split; [exact I|].
    rewrite WL. cbn. congruence. }
  induction n as [|n IH]; intros s; cbv zeta.
  - cbn [seq map app concat]. rewrite app_nil_r, Nat.add_0_r.
    split; [rewrite replica_translate; apply chained_translate; exact Hc|].
    split; [apply (F s mid rest E1)|].
    split.
    + rewrite replica_translate, wire_last_translate, WL. reflexivity.
    + rewrite length_replica. reflexivity.
  - cbn [seq map app concat].
    replace (s + S n)%nat with (S s + n)%nat by lia.
    destruct (IH (S s)) as (C & Fi & La & Le). cbv zeta in *.
    split; [|split; [|split]].
    + apply chained_app. split.
      { rewrite replica_translate. apply chained_translate. exact Hu. }
      split; [exact C|].
      rewrite Fi, replica_translate, wire_last_translate, wire_last_snoc.
      cbn [option_map]. rewrite Hb2, vadd_assoc, shift_succ. reflexivity.
    + rewrite wire_first_app.
      rewrite (F s (mid ++ [b]) (rest ++ [b])); [reflexivity|].
      rewrite E1. reflexivity.
    + rewrite wire_last_app, La. reflexivity.
    + rewrite length_app, Le, length_replica, length_app. cbn [length]. lia.
Qed.

End Closure.

Section Outline.

Context {K : GeometryKernel}.

Lemma corner_planar (e1 e2 : Edge) (r : R) (a b : Edge) (f : option Edge) :
  fillet_planar ->
  corner e1 e2 r = Ok (a, f, b) ->
  in_plane e1 -> in_plane e2 ->
  in_plane a /\ in_plane b /\ Forall in_plane (slot_edges f).
Proof.
  intros HP H P1 P2. destruct (corner_ok _ _ _ _ _ _ H) as (_ & Hn & Hs).
  destruct f as [g|].
  - destruct (HP _ _ _ _ _ _ (Hs g eq_refl) P1 P2) as (Pa & Pg & Pb).
    split; [exact Pa|]. split; [exact Pb|].
    constructor; [exact Pg | constructor].
  - destruct (Hn eq_refl) as [-> ->].
    split; [exact P1|]. split; [exact P2|]. constructor.
Qed.

(** With fillets that stay in the plane, so does the filleted chain. *)
Lemma tooth_chain_planar (obj : Obj.t) (m : R) (chain : list Edge) :
  fillet_planar ->
  tooth_chain obj m = Ok chain ->
  Forall in_plane chain.
Proof.
  intros HP. unfold tooth_chain, tooth_profile.
  destruct (Obj.clearance obj) as [c|]; cbn [getattr bind]; [|discriminate].
  intros H. apply bind_ok in H. destruct H as (slots & Hs & H).
  injection H as <-.
  unfold raw_tooth, tooth_lines, tooth_points, points_to_wire in Hs.
  cbn [map fst snd] in Hs.
  destruct (fillet_tooth_inversion _ _ _ _ _ _ _ _ _ Hs)
    as (a0 & f0 & b1 & a1 & f1 & b2 & a2 & f2 & b3 & a3 & f3 & a4
        & H0 & H1 & H2 & H3 & _ & Hd).
  assert (PL : forall p q, in_plane (Line (fcvec p) (fcvec q)))
    by (intros; split; reflexivity).
  destruct (corner_planar _ _ _ _ _ _ HP H0 (PL _ _) (PL _ _))
    as (A0 & B1 & F0).
  destruct (corner_planar _ _ _ _ _ _ HP H1 B1 (PL _ _)) as (A1 & B2 & F1).
  destruct (corner_planar _ _ _ _ _ _ HP H2 B2 (PL _ _)) as (A2 & B3 & F2).
  destruct (corner_planar _ _ _ _ _ _ HP H3 B3 (PL _ _)) as (A3 & A4 & F3).
  rewrite Hd.
  constructor; [exact A0|]. apply Forall_app. split.
  - apply Forall_app. split; [exact F0|]. constructor; [exact A1|].
    apply Forall_app. split; [exact F1|]. constructor; [exact A2|].
    apply Forall_app. split; [exact F2|]. constructor; [exact A3|].
    exact F3.
  - constructor; [exact A4 | constructor].
Qed.

(** The outline of a build, written out. *)
Lemma rack_outline_inversion (obj : Obj.t) (m : R) (pol : Wire) :
  rack_outline obj m = Ok pol ->
  exists chain a0 mid a4 e1 rest e2 init b,
    tooth_chain obj m = Ok chain /\
    chain = a0 :: mid ++ [a4] /\
    mid = e1 :: rest /\ mid = init ++ [e2] /\
    Obj.add_endings obj = Some b /\
    let n := Z.to_nat (Obj.num_teeth obj - 1) in
    let final := map (fun k => replica k m (mid ++ [bridge m e1 e2])) (seq 0 n)
                   ++ [replica n m mid] in
    let cap :=
      translate (vec 0 (PI * m * IZR (Obj.num_teeth obj - 1)) 0) a4 in
    let teeth := if b then [[a0]] ++ final ++ [[cap]] else final in
    let p_start := if b then xy (firstVertex a0) else xy (firstVertex e1) in
    let p_end :=
      if b then xy (lastVertex cap)
      else xy (vadd (lastVertex e2) (vec 0 (INR n * (PI * m)) 0)) in
    let t := Obj.thickness obj in
    pol = points_to_wire
            [(p_start, psub p_start (t, 0));
             (psub p_start (t, 0), psub p_end (t, 0));
             (psub p_end (t, 0), p_end)]
          ++ concat teeth.
Proof.
  unfold rack_outline. intros H.
  apply bind_ok in H. destruct H as (chain & Hchain & H).
  apply bind_ok in H. destruct H as (teeth & Hteeth & Hpol).
  destruct (tooth_chain_shape _ _ _ Hchain)
    as (c & a0 & mid & a4 & _ & E & Hmid & _).
  destruct (nonempty_ends mid) as (e1 & rest & e2 & init & E1 & E2); [lia|].
  destruct (tooth_unit_ok m a0 a4 e1 e2 mid rest init E1 E2)
    as (G1 & G2 & G3 & GU).
  subst chain.
  set (n := Z.to_nat (Obj.num_teeth obj - 1)) in *.
  set (final := map (fun k => replica k m (mid ++ [bridge m e1 e2]))
                  (seq 0 n) ++ [replica n m mid]).
  assert (HR : rack_teeth obj m (a0 :: mid ++ [a4])
               = (add_endings <- getattr "add_endings" (Obj.add_endings obj) ;;
                  endings add_endings m (Obj.num_teeth obj)
                    (a0 :: mid ++ [a4]) final)).
  { unfold rack_teeth, tiled_teeth. rewrite GU. cbn [bind].
    rewrite tiled_as_replicas, drop_trailing_replicas. reflexivity. }
  assert (GL : py_get_back (a0 :: mid ++ [a4]) 1 = Ok a4)
    by (apply (py_get_back_last (a0 :: mid))).
  rewrite HR in Hteeth.
  destruct (Obj.add_endings obj) as [b|] eqn:Ha; cbn [getattr bind] in Hteeth;
    [|discriminate].
  exists (a0 :: mid ++ [a4]), a0, mid, a4, e1, rest, e2, init, b.
  split; [exact Hchain|]. split; [reflexivity|].
  split; [exact E1|]. split; [exact E2|]. split; [reflexivity|].
  cbv zeta. fold n. fold final.
  destruct b.
  - unfold endings in Hteeth. cbn [py_get nth_error bind] in Hteeth.
    rewrite GL in Hteeth. cbn [bind] in Hteeth. injection Hteeth as <-.
    pose proof (chain_ends_capped a0
                  (translate
                     (vec 0 (PI * m * IZR (Obj.num_teeth obj - 1)) 0) a4)
                  final) as HC.
    unfold close_outline in Hpol.
    change (chain_ends (([[a0]] ++ final)
                          ++ [[translate
                                 (vec 0 (PI * m * IZR (Obj.num_teeth obj - 1))
                                    0) a4]]))
      with (chain_ends ([[a0]] ++ final
                          ++ [[translate
                                 (vec 0 (PI * m * IZR (Obj.num_teeth obj - 1))
                                    0) a4]])) in Hpol.
    destruct (chain_ends _) as [[p q]|]; [|discriminate].
    injection HC as <- <-. cbn [bind] in Hpol. injection Hpol as <-.
    reflexivity.
  - unfold endings in Hteeth. injection Hteeth as <-.
    pose proof (chain_ends_open m n mid rest init e1 e2 (bridge m e1 e2)
                  E1 E2) as HC.
    fold final in HC. unfold close_outline in Hpol.
    destruct (chain_ends final) as [[p q]|]; [|discriminate].
    injection HC as <- <-. cbn [bind] in Hpol. injection Hpol as <-.
    reflexivity.
Qed.

End Outline.

Lemma sketch_fillet_planar (limit : R) :
  @fillet_planar (SketchKernel.kernel limit).
Proof.
  intros e1 e2 r a f b. cbn [make_fillet SketchKernel.kernel].
  unfold SketchKernel.fillet.
  destruct (Rlt_dec limit r); [discriminate|].
  intros H [P1 P1'] [P2 P2']. injection H as <- <- <-.
  unfold in_plane, SketchKernel.mid. cbn [firstVertex lastVertex vz].
  rewrite P1, P1', P2'. repeat split; lra.
Qed.

Lemma herringbone_outline :
  exists pol,
    @rack_outline (SketchKernel.kernel 1) SketchKernel.herringbone 1 = Ok pol.
Proof.
  destruct herringbone_chain as (chain & Hc).
  exact (@rack_outline_after_chain (SketchKernel.kernel 1)
           SketchKernel.herringbone 1 chain Hc).
Qed.

Lemma vadd_shift0 (v : Vector) (x : R) : vadd v (vec 0 (INR 0 * x) 0) = v.
Proof.
  destruct v as [a b c]. unfold vadd. cbn [vx vy vz INR]. f_equal; ring.
Qed.

Lemma length_teeth (m : R) (u w : Wire) (n s : nat) :
  length (concat (map (fun k => replica k m u) (seq s n) ++ [w]))
  = (n * length u + length w)%nat.
Proof.
  revert s. induction n as [|n IH]; intros s.
  - cbn. rewrite app_nil_r. reflexivity.
  - cbn [seq map app concat]. rewrite length_app, IH, length_replica. lia.
Qed.

(** X11. The outline is a closed loop.  With a kernel whose fillets join
    their neighbours and stay in the plane, and at least one tooth, the
    outline of a build is the base strip, three edges in a chain, followed
    by the teeth with their end caps, edge after edge in one chain; both
    chains start at the same point and both end at the same point. *)
Theorem outline_is_closed `{GeometryKernel} (obj : Obj.t) (m : R)
    (pol : Wire) :
  fillet_joins -> fillet_planar ->
  (1 <= Obj.num_teeth obj)%Z ->
  rack_outline obj m = Ok pol ->
  exists bottom top,
    pol = bottom ++ top /\
    length bottom = 3%nat /\
    chained bottom /\
    chained top /\
    wire_first top <> None /\
    wire_first bottom = wire_first top /\
    wire_last bottom = wire_last top.
Proof.
  intros HJ HP HN Hpol.
  destruct (rack_outline_inversion _ _ _ Hpol)
    as (chain & a0 & mid & a4 & e1 & rest & e2 & init & b
        & Hchain & -> & E1 & E2 & Ha & ->).
  destruct (tooth_chain_shape _ _ _ Hchain)
    as (c & a0' & mid' & a4' & _ & _ & _ & Hends).
  destruct (Hends HJ) as (Hc & _). clear Hends a0' mid' a4'.
  pose proof (tooth_chain_planar _ _ _ HP Hchain) as Hpl.
  change (a0 :: mid ++ [a4]) with ([a0] ++ mid ++ [a4]) in Hc.
  apply chained_app in Hc. destruct Hc as (_ & Hc & J0).
  apply chained_app in Hc. destruct Hc as (Hmid & _ & J4).
  assert (WL : wire_last mid = Some (lastVertex e2))
    by (rewrite E2; apply wire_last_snoc).
  rewrite wire_first_app in J0. rewrite WL in J4.
  assert (WF : wire_first mid = Some (firstVertex e1))
    by (rewrite E1; reflexivity).
  rewrite WF in J0. cbn [wire_last wire_first] in J0, J4.
  inversion Hpl as [|x l P0 Pl]; subst x l.
  apply Forall_app in Pl. destruct Pl as [Pm P4].
  inversion P4 as [|x l P4' _]; subst x l.
  assert (P1 : in_plane e1) by (rewrite E1 in Pm; inversion Pm; assumption).
  assert (P2 : in_plane e2).
  { rewrite E2 in Pm. apply Forall_app in Pm. destruct Pm as [_ Pm].
    inversion Pm; assumption. }
  destruct (bridge_ends m e1 e2 (proj1 P1) (proj2 P2)) as [Hb1 Hb2].
  set (n := Z.to_nat (Obj.num_teeth obj - 1)).
  assert (HI : INR n = IZR (Obj.num_teeth obj - 1)).
  { unfold n. rewrite INR_IZR_INZ, Z2Nat.id by lia. reflexivity. }
  destruct (teeth_linked m mid rest init e1 e2 (bridge m e1 e2)
              E1 E2 Hmid Hb1 Hb2 n 0) as (C & Fi & La & _).
  cbv zeta in *. cbn [Nat.add] in C, Fi, La. rewrite vadd_shift0 in Fi.
  fold n.
  set (final := map (fun k => replica k m (mid ++ [bridge m e1 e2])) (seq 0 n)
                  ++ [replica n m mid]) in *.
  eexists. eexists. split; [reflexivity|].
  split; [reflexivity|].
  split; [cbn; repeat split; reflexivity|].
  destruct b.
  - set (cap := translate
                  (vec 0 (PI * m * IZR (Obj.num_teeth obj - 1)) 0) a4).
    assert (ET : concat ([[a0]] ++ final ++ [[cap]])
                 = [a0] ++ concat final ++ [cap]).
    { rewrite !concat_app. cbn [concat app]. reflexivity. }
    rewrite ET.
    assert (HC : lastVertex cap = fcvec (xy (lastVertex cap))).
    { symmetry. apply fcvec_xy. unfold cap. rewrite lastVertex_translate.
      cbn [vadd vz]. rewrite (proj2 P4'). apply Rplus_0_r. }
    split.
    { apply chained_app. split; [exact I|]. split.
      - apply chained_app. split; [exact C|]. split; [exact I|].
        rewrite La. cbn [wire_first]. unfold cap.
        rewrite firstVertex_translate, <- J4, HI. do 2 f_equal. ring.
      - rewrite wire_first_app, Fi. cbn [wire_last]. exact J0. }
    split; [discriminate|]. split.
    + cbn [points_to_wire map wire_first firstVertex fst snd app].
      f_equal. apply fcvec_xy. exact (proj1 P0).
    + rewrite !wire_last_app. cbn [points_to_wire map wire_last lastVertex
                                   fst snd].
      f_equal. symmetry. exact HC.
  - split; [exact C|]. rewrite Fi. split; [discriminate|]. split.
    + cbn [points_to_wire map wire_first firstVertex fst snd].
      f_equal. apply fcvec_xy. exact (proj1 P1).
    + rewrite La. cbn [points_to_wire map wire_last lastVertex fst snd].
      f_equal. apply fcvec_xy. cbn [vadd vz]. rewrite (proj2 P2).
      apply Rplus_0_r.
Qed.

Lemma outline_is_closed_witness :
  exists pol bottom top,
    @rack_outline (SketchKernel.kernel 1) SketchKernel.herringbone 1 = Ok pol /\
    pol = bottom ++ top /\
    chained top /\
    wire_first bottom = wire_first top /\
    wire_last bottom = wire_last top.
Proof.
  destruct herringbone_outline as (pol & Hpol).
  destruct (@outline_is_closed (SketchKernel.kernel 1)
              SketchKernel.herringbone 1 pol)
    as (bottom & top & E & _ & _ & C & _ & F & L).
  - apply sketch_fillet_joins.
  - apply sketch_fillet_planar.
  - cbn. lia.
  - exact Hpol.
  - exists pol, bottom, top. tauto.
Defined.

(** X12. With end caps the base strip is the three remaining sides of a
    rectangle under the root line: from the start of the rack, at pitch
    [-m*PI/2], it goes down by the thickness, runs level for
    [num_teeth * m * PI] and comes up again to the root line at the end of
    the rack. *)
Theorem base_strip_with_caps `{GeometryKernel} (obj : Obj.t) (m c : R)
    (pol : Wire) :
  let root := - m * (1 + c) in
  let x1 := - m * PI / 2 in
  let t := Obj.thickness obj in
  let len := IZR (Obj.num_teeth obj) * m * PI in
  fillet_joins ->
  Obj.add_endings obj = Some true ->
  Obj.clearance obj = Some c ->
  rack_outline obj m = Ok pol ->
  exists l6 l7 l8 teeth,
    pol = l6 :: l7 :: l8 :: teeth /\
    firstVertex l6 = vec root x1 0 /\
    lastVertex l6 = firstVertex l7 /\
    vx (firstVertex l7) = root - t /\
    vy (firstVertex l7) = x1 /\
    lastVertex l7 = firstVertex l8 /\
    vx (lastVertex l7) = root - t /\
    vy (lastVertex l7) = x1 + len /\
    vx (lastVertex l8) = root /\
    vy (lastVertex l8) = x1 + len /\
    vz (lastVertex l8) = 0 /\
    vy (lastVertex l7) - vy (firstVertex l7) = len.
Proof.
  cbv zeta. intros HJ Ha Hc Hpol.
  destruct (rack_outline_inversion _ _ _ Hpol)
    as (chain & a0 & mid & a4 & e1 & rest & e2 & init & b
        & Hchain & -> & E1 & E2 & Ha' & ->).
  rewrite Ha in Ha'. injection Ha' as <-.
  destruct (tooth_chain_shape _ _ _ Hchain)
    as (c' & a0' & mid' & a4' & Hc' & E & _ & Hends).
  rewrite Hc in Hc'. injection Hc' as <-.
  destruct (Hends HJ) as (_ & Hf & Hl). clear Hends.
  injection E as <- E. apply app_inj_tail in E. destruct E as [_ <-].
  cbv zeta. cbn [points_to_wire map app fst snd].
  do 4 eexists. split; [reflexivity|].
  cbn [firstVertex lastVertex].
  rewrite lastVertex_translate, Hf, Hl.
  unfold fcvec, psub, xy, vadd. cbn [fst snd vx vy vz].
  rewrite minus_IZR.
  repeat split; try reflexivity; try field.
Qed.

Lemma base_strip_with_caps_witness :
  exists pol l6 l7 l8 teeth,
    @rack_outline (SketchKernel.kernel 1) SketchKernel.herringbone 1 = Ok pol /\
    pol = l6 :: l7 :: l8 :: teeth /\
    vy (lastVertex l7) - vy (firstVertex l7) = 3 * 1 * PI.
Proof.
  destruct herringbone_outline as (pol & Hpol).
  destruct (@base_strip_with_caps (SketchKernel.kernel 1)
              SketchKernel.herringbone 1 (1 / 4) pol)
    as (l6 & l7 & l8 & teeth & E & _ & _ & _ & _ & _ & _ & _ & _ & _ & _ & HL).
  - apply sketch_fillet_joins.
  - reflexivity.
  - reflexivity.
  - exact Hpol.
  - exists pol, l6, l7, l8, teeth. split; [exact Hpol|].
    split; [exact E | exact HL].
Defined.

(** X13. The number of edges of the outline depends on the number of teeth,
    on [add_endings] and on the number of edges of the filleted chain only:
    three edges for the base strip, two for the end caps if they are asked
    for, and for each of the [max(1, num_teeth)] teeth the chain without its
    first and last edge and one bridging edge, the last bridging edge left
    out. *)
Theorem outline_edge_count `{GeometryKernel} (obj : Obj.t) (m : R)
    (pol : Wire) :
  rack_outline obj m = Ok pol ->
  exists chain b,
    tooth_chain obj m = Ok chain /\
    Obj.add_endings obj = Some b /\
    (length pol + 1
     = 3 + (if b then 2 else 0)
       + Z.to_nat (Z.max 1 (Obj.num_teeth obj)) * (length chain - 1))%nat.
Proof.
  intros Hpol.
  destruct (rack_outline_inversion _ _ _ Hpol)
    as (chain & a0 & mid & a4 & e1 & rest & e2 & init & b
        & Hchain & -> & E1 & E2 & Ha & ->).
  exists (a0 :: mid ++ [a4]), b.
  split; [exact Hchain|]. split; [exact Ha|].
  cbv zeta.
  set (n := Z.to_nat (Obj.num_teeth obj - 1)).
  replace (Z.to_nat (Z.max 1 (Obj.num_teeth obj))) with (S n)
    by (unfold n; lia).
  assert (LC : length (a0 :: mid ++ [a4]) = S (S (length mid)))
    by (cbn [length]; rewrite length_app; cbn [length]; lia).
  rewrite LC.
  assert (LU : length (mid ++ [bridge m e1 e2]) = S (length mid))
    by (rewrite length_app; cbn [length]; lia).
  destruct b.
  - rewrite length_app. do 2 rewrite concat_app. rewrite !length_app.
    rewrite length_teeth, LU, length_replica.
    cbn [points_to_wire map concat length app]. lia.
  - rewrite length_app, length_teeth, LU, length_replica.
    cbn [points_to_wire map length]. lia.
Qed.

Lemma outline_edge_count_witness :
  exists pol chain,
    @rack_outline (SketchKernel.kernel 1) SketchKernel.herringbone 1 = Ok pol /\
    @tooth_chain (SketchKernel.kernel 1) SketchKernel.herringbone 1
    = Ok chain /\
    (length pol + 1 = 3 + 2 + 3 * (length chain - 1))%nat.
Proof.
  destruct herringbone_outline as (pol & Hpol).
  destruct (@outline_edge_count (SketchKernel.kernel 1)
              SketchKernel.herringbone 1 pol Hpol)
    as (chain & b & Hc & Hb & HL).
  exists pol, chain. split; [exact Hpol|]. split; [exact Hc|].
  cbn in Hb. injection Hb as <-. exact HL.
Defined.

(** ** The tooth and its fillets in a build *)



Lemma tool_on_module (obj : Obj.t) :
  Obj.properties_from_tool obj = Some true ->
  Obj.module obj = 1 -> Obj.helix_angle obj = 60 ->
  @effective_module SketchKernel.convention obj = 2.
Proof.
  intros Hp Hm Hb.
  unfold effective_module, compute_properties, update_rack,
    InvoluteRack._update.
  cbn [InvoluteRack.properties_from_tool]. rewrite Hp.
  cbn [assign_if_present tool_properties SketchKernel.convention
       InvoluteRack.m InvoluteRack.beta].
  rewrite Hm, Hb. replace (60 * PI / 180) with (PI / 3) by field.
  rewrite cos_PI3. field.
Qed.

(** C2, as the spec words it, fails: with [properties_from_tool] on, module
    1 and a helix angle of 60 degrees the build draws with the module 2, and
    the root fillet it asks the kernel for has the radius 2 * 1/10.  A kernel
    that makes fillets up to the radius 3/20 would make the one of radius
    module * root_fillet = 1/10, and refuses the one the build asks for. *)
Lemma fillet_radius_is_not_module_times_factor :
  let K := SketchKernel.kernel (3 / 20) in
  let T := SketchKernel.convention in
  let obj := Examples.tool_on_filleted in
  Obj.module obj * Obj.root_fillet obj = 1 / 10 /\
  (forall e1 e2,
      exists a f b,
        @corner K e1 e2 (Obj.module obj * Obj.root_fillet obj)
        = Ok (a, Some f, b)) /\
  @effective_module T obj * Obj.root_fillet obj = 2 / 10 /\
  @tooth_chain K obj (@effective_module T obj)
  = Raise GeometricConstraintError.
Proof.
  cbv zeta.
  assert (EM : @effective_module SketchKernel.convention
                 Examples.tool_on_filleted = 2)
    by (apply tool_on_module; reflexivity).
  split; [cbn; field|]. split.
  - intros e1 e2. do 3 eexists.
    apply sketch_corner_round; cbn; lra.
  - rewrite EM. split; [cbn; field|].
    unfold tooth_chain, tooth_profile.
    cbn [getattr bind Examples.tool_on_filleted Obj.clearance Obj.head
         Obj.pressure_angle Obj.head_fillet Obj.root_fillet].
    unfold raw_tooth, tooth_lines, tooth_points, points_to_wire.
    cbn [map fst snd]. rewrite fillet_tooth_corners.
    rewrite sketch_corner_refused by lra. reflexivity.
Qed.

(** C2, amended. In a build the four [insert_fillet] calls treat the four
    corners of the raw tooth, at slots 0, 2, 4 and 6 of the growing array:
    the root corners with the radius [m * root_fillet], the head corners
    with the radius [m * head_fillet], where [m] is the module the build
    draws with (the stored module when [properties_from_tool] is off).  The
    array ends with nine slots; the even ones hold the (possibly shortened)
    straight edges, the odd ones the fillet of the corner or [None], and
    [None] exactly when the radius is not positive, so a factor of 0 leaves
    the corner sharp; with both factors 0 the chain is the raw tooth and the
    calls cannot fail.  The chain of the build is the slots without the
    placeholders, in order, and with a kernel whose fillets join their
    neighbours it is one chain from the first raw vertex to the last. *)
Theorem fillets_at_the_four_corners `{GeometryKernel} `{ToolConvention}
    (obj : Obj.t) (c : R) :
  let m := effective_module obj in
  let rf := Obj.root_fillet obj in
  let hf := Obj.head_fillet obj in
  let '(p1, p2, p3, p4, p5, p6) :=
    tooth_points m c (Obj.head obj) (Obj.pressure_angle obj * PI / 180) in
  let l1 := Line (fcvec p1) (fcvec p2) in
  let l2 := Line (fcvec p2) (fcvec p3) in
  let l3 := Line (fcvec p3) (fcvec p4) in
  let l4 := Line (fcvec p4) (fcvec p5) in
  let l5 := Line (fcvec p5) (fcvec p6) in
  Obj.clearance obj = Some c ->
  (rf = 0 -> hf = 0 -> tooth_chain obj m = Ok [l1; l2; l3; l4; l5]) /\
  (forall chain,
      tooth_chain obj m = Ok chain ->
      exists a0 f0 b1 a1 f1 b2 a2 f2 b3 a3 f3 a4,
        corner l1 l2 (m * rf) = Ok (a0, f0, b1) /\
        corner b1 l3 (m * hf) = Ok (a1, f1, b2) /\
        corner b2 l4 (m * hf) = Ok (a2, f2, b3) /\
        corner b3 l5 (m * rf) = Ok (a3, f3, a4) /\
        fillet_tooth m rf hf [l1; l2; l3; l4; l5]
        = Ok [Some a0; f0; Some a1; f1; Some a2; f2; Some a3; f3; Some a4] /\
        (f0 = None <-> ~ 0 < m * rf) /\
        (f1 = None <-> ~ 0 < m * hf) /\
        (f2 = None <-> ~ 0 < m * hf) /\
        (f3 = None <-> ~ 0 < m * rf) /\
        (rf = 0 -> f0 = None /\ f3 = None /\ a0 = l1 /\ a4 = l5) /\
        (hf = 0 -> f1 = None /\ f2 = None) /\
        chain
        = a0 :: slot_edges f0 ++ a1 :: slot_edges f1 ++ a2 :: slot_edges f2
             ++ a3 :: slot_edges f3 ++ [a4] /\
        (fillet_joins ->
         chained chain /\
         firstVertex a0 = fcvec p1 /\ lastVertex a4 = fcvec p6)) /\
  (Obj.properties_from_tool obj = Some false -> m = Obj.module obj).
Proof.
  cbv zeta.
  assert (TC : Obj.clearance obj = Some c ->
               tooth_chain obj (effective_module obj)
               = (edges <- fillet_tooth (effective_module obj)
                             (Obj.root_fillet obj) (Obj.head_fillet obj)
                             (raw_tooth (effective_module obj) c (Obj.head obj)
                                (Obj.pressure_angle obj * PI / 180)) ;;
                  Ok (drop_none edges)))
    by (intros Hc; unfold tooth_chain, tooth_profile; rewrite Hc;
        reflexivity).
  revert TC. unfold raw_tooth, tooth_lines.
  destruct (tooth_points (effective_module obj) c (Obj.head obj)
              (Obj.pressure_angle obj * PI / 180))
    as [[[[[p1 p2] p3] p4] p5] p6].
  intros TC Hc. specialize (TC Hc).
  unfold points_to_wire in TC. cbn [map fst snd] in TC.
  set (m := effective_module obj) in *.
  split; [|split].
  - intros Hr Hh. rewrite TC, Hr, Hh, fillet_tooth_corners.
    repeat (rewrite corner_sharp by (rewrite Rmult_0_r; apply Rlt_irrefl);
            cbn [bind]).
    reflexivity.
  - intros chain Hchain. rewrite TC in Hchain.
    apply bind_ok in Hchain. destruct Hchain as (slots & Hs & Hchain).
    injection Hchain as <-.
    destruct (fillet_tooth_inversion _ _ _ _ _ _ _ _ _ Hs)
      as (a0 & f0 & b1 & a1 & f1 & b2 & a2 & f2 & b3 & a3 & f3 & a4
          & H0' & H1' & H2' & H3' & E & Hd).
    exists a0, f0, b1, a1, f1, b2, a2, f2, b3, a3, f3, a4.
    destruct (corner_ok _ _ _ _ _ _ H0') as (N0 & S0 & _).
    destruct (corner_ok _ _ _ _ _ _ H1') as (N1 & S1 & _).
    destruct (corner_ok _ _ _ _ _ _ H2') as (N2 & S2 & _).
    destruct (corner_ok _ _ _ _ _ _ H3') as (N3 & S3 & _).
    split; [exact H0'|]. split; [exact H1'|].
    split; [exact H2'|]. split; [exact H3'|].
    split; [rewrite <- E; exact Hs|].
    split; [exact N0|]. split; [exact N1|].
    split; [exact N2|]. split; [exact N3|].
    split.
    { intros Hr. rewrite Hr, Rmult_0_r in N0, N3.
      assert (E0 : f0 = None) by (apply N0, Rlt_irrefl).
      assert (E3 : f3 = None) by (apply N3, Rlt_irrefl).
      destruct (S0 E0), (S3 E3). tauto. }
    split.
    { intros Hh. rewrite Hh, Rmult_0_r in N1, N2.
      split; [apply N1 | apply N2]; apply Rlt_irrefl. }
    split.
    { rewrite Hd. destruct f0, f1, f2, f3; reflexivity. }
    intros HJ.
    destruct (filleted_chain_joins _ _ _ _ _ _ _ _ _ _ HJ Hs)
      as (Hch & a0' & mid & a4' & Hd' & _ & Hf & Hl).
    rewrite Hd in Hd'. injection Hd' as <- Hd'.
    apply app_inj_tail in Hd'. destruct Hd' as [_ <-].
    tauto.
  - apply effective_module_plain.
Qed.

Lemma fillets_at_the_four_corners_witness :
  exists chain,
    @tooth_chain (SketchKernel.kernel 1) SketchKernel.herringbone 1
    = Ok chain /\
    length chain = 7%nat /\
    chained chain.
Proof.
  destruct herringbone_chain as (chain & Hc).
  pose proof (@fillets_at_the_four_corners (SketchKernel.kernel 1)
                SketchKernel.convention SketchKernel.herringbone (1 / 4)) as T.
  unfold tooth_points in T. cbv zeta in T.
  destruct (T eq_refl) as (_ & HT & _).
  destruct (HT chain Hc)
    as (a0 & f0 & b1 & a1 & f1 & b2 & a2 & f2 & b3 & a3 & f3 & a4
        & _ & _ & _ & _ & _ & N0 & N1 & N2 & N3 & _ & _ & E & HJ).
  exists chain. split; [exact Hc|]. split.
  - assert (EM : @effective_module SketchKernel.convention
                   SketchKernel.herringbone = 1)
      by (apply effective_module_plain; reflexivity).
    rewrite EM in N0, N1, N2, N3. cbn in N0, N1, N2, N3.
    rewrite E.
    destruct f0 as [g0|]; [|exfalso; apply (proj1 N0 eq_refl); lra].
    destruct f3 as [g3|]; [|exfalso; apply (proj1 N3 eq_refl); lra].
    destruct f1 as [g1|];
      [assert (X : Some g1 = None) by (apply N1; lra); discriminate|].
    destruct f2 as [g2|];
      [assert (X : Some g2 = None) by (apply N2; lra); discriminate|].
    reflexivity.
  - apply HJ. apply sketch_fillet_joins.
Defined.

(** ** Builds with [properties_from_tool] on, and single helices *)

Section Ends.

Context {K : GeometryKernel}.

(** Where the chain of teeth of a build starts and ends. *)
Lemma rack_teeth_ends (obj : Obj.t) (m : R) (chain : list Edge) (b : bool) :
  tooth_chain obj m = Ok chain ->
  Obj.add_endings obj = Some b ->
  exists a0 a4 e1 e2 teeth,
    py_get chain 0 = Ok a0 /\
    py_get_back chain 1 = Ok a4 /\
    py_get chain 1 = Ok e1 /\
    py_get_back chain 2 = Ok e2 /\
    rack_teeth obj m chain = Ok teeth /\
    chain_ends teeth
    = Ok (if b
          then (xy (firstVertex a0),
                xy (vadd (lastVertex a4)
                      (vec 0 (PI * m * IZR (Obj.num_teeth obj - 1)) 0)))
          else (xy (firstVertex e1),
                xy (vadd (lastVertex e2)
                      (vec 0 (INR (Z.to_nat (Obj.num_teeth obj - 1))
                              * (PI * m)) 0)))).
Proof.
  intros Hchain Ha.
  destruct (tooth_chain_shape _ _ _ Hchain)
    as (c & a0 & mid & a4 & _ & -> & Hmid & _).
  destruct (nonempty_ends mid) as (e1 & rest & e2 & init & E1 & E2); [lia|].
  destruct (tooth_unit_ok m a0 a4 e1 e2 mid rest init E1 E2)
    as (G1 & G2 & G3 & GU).
  set (n := Z.to_nat (Obj.num_teeth obj - 1)).
  set (final := map (fun k => replica k m (mid ++ [bridge m e1 e2]))
                  (seq 0 n) ++ [replica n m mid]).
  assert (HR : rack_teeth obj m (a0 :: mid ++ [a4])
               = (add_endings <- getattr "add_endings" (Obj.add_endings obj) ;;
                  endings add_endings m (Obj.num_teeth obj)
                    (a0 :: mid ++ [a4]) final)).
  { unfold rack_teeth, tiled_teeth. rewrite GU. cbn [bind].
    rewrite tiled_as_replicas, drop_trailing_replicas. reflexivity. }
  assert (GL : py_get_back (a0 :: mid ++ [a4]) 1 = Ok a4)
    by (apply (py_get_back_last (a0 :: mid))).
  exists a0, a4, e1, e2.
  destruct b.
  - exists ([[a0]] ++ final
              ++ [[translate
                     (vec 0 (PI * m * IZR (Obj.num_teeth obj - 1)) 0) a4]]).
    split; [reflexivity|]. split; [exact GL|].
    split; [exact G1|]. split; [exact G2|]. split.
    + rewrite HR, Ha. cbn [getattr bind]. unfold endings.
      cbn [py_get nth_error bind]. rewrite GL. reflexivity.
    + rewrite chain_ends_capped, lastVertex_translate. reflexivity.
  - exists final.
    split; [reflexivity|]. split; [exact GL|].
    split; [exact G1|]. split; [exact G2|]. split.
    + rewrite HR, Ha. reflexivity.
    + apply (chain_ends_open m n mid rest init e1 e2 _ E1 E2).
Qed.

End Ends.

(** C3, as the spec words it, fails: with [properties_from_tool] on, module
    1 and a helix angle of 60 degrees the build draws with the module 2 and
    the second tooth is the first one moved by 2 * PI along the pitch axis;
    its vertices are not those of the first tooth plus (0, module * PI). *)
Lemma teeth_step_is_not_module_pi :
  let K := SketchKernel.kernel 1 in
  let T := SketchKernel.convention in
  let obj := Examples.tool_on in
  let m := @effective_module T obj in
  exists chain teeth w0 w1,
    @tooth_chain K obj m = Ok chain /\
    tiled_teeth (Obj.num_teeth obj) m chain = Ok teeth /\
    nth_error teeth 0 = Some w0 /\
    nth_error teeth 1 = Some w1 /\
    w1 = translate_wire (vec 0 (PI * 2) 0) w0 /\
    vertices w1
    <> map (fun p => vadd p (vec 0 (Obj.module obj * PI) 0)) (vertices w0).
Proof.
  cbv zeta.
  assert (EM : @effective_module SketchKernel.convention Examples.tool_on = 2)
    by (apply tool_on_module; reflexivity).
  rewrite EM.
  pose proof (@tooth_chain_sharp (SketchKernel.kernel 1) Examples.tool_on 2
                (1 / 4) eq_refl eq_refl eq_refl) as Hchain.
  destruct (tooth_chain_shape _ _ _ Hchain)
    as (c & a0 & mid & a4 & _ & E & Hmid & _).
  destruct (nonempty_ends mid) as (e1 & rest & e2 & init & E1 & E2); [lia|].
  destruct (tooth_unit_ok 2 a0 a4 e1 e2 mid rest init E1 E2)
    as (_ & _ & _ & GU).
  rewrite <- E in GU.
  eexists. exists (map (fun k => replica k 2 (mid ++ [bridge 2 e1 e2]))
                     (seq 0 3)).
  exists (mid ++ [bridge 2 e1 e2]),
    (translate_wire (vec 0 (PI * 2) 0) (mid ++ [bridge 2 e1 e2])).
  split; [exact Hchain|]. split.
  { unfold tiled_teeth. rewrite GU. cbn [bind].
    f_equal; apply (tiled_as_replicas 2 2). }
  split; [reflexivity|]. split; [reflexivity|]. split; [reflexivity|].
  rewrite vertices_translate, E1. cbn [app vertices map].
  intros HV. injection HV as HV _. cbn in HV. pose proof PI_RGT_0. lra.
Qed.

(** C4, as the spec words it, fails in both halves.  With
    [properties_from_tool] on, module 1 and a helix angle of 60 degrees the
    rack with end caps spans 3 * 2 * PI, not num_teeth * module * PI.  And
    the default rack without end caps starts and ends at root height, at the
    feet of the outer flanks and not half way up a flank, and spans 14
    pitches and the whole width of a tooth at its root. *)
Lemma rack_extent_is_not_module_pi :
  let K := SketchKernel.kernel 1 in
  let T := SketchKernel.convention in
  (let obj := Examples.tool_on in
   let m := @effective_module T obj in
   exists chain teeth ext,
     @tooth_chain K obj m = Ok chain /\
     rack_teeth obj m chain = Ok teeth /\
     pitch_extent teeth = Ok ext /\
     ext = 3 * 2 * PI /\
     ext <> IZR (Obj.num_teeth obj) * Obj.module obj * PI) /\
  (let obj := Examples.open_rack in
   let m := @effective_module T obj in
   let root := - Obj.module obj * (1 + 1 / 4) in
   exists chain teeth p_start p_end,
     @tooth_chain K obj m = Ok chain /\
     rack_teeth obj m chain = Ok teeth /\
     chain_ends teeth = Ok (p_start, p_end) /\
     fst p_start = root /\
     fst p_end = root /\
     snd p_end - snd p_start
     = 14 * (Obj.module obj * PI)
       + (PI / 2 + 2 * (1 + 1 / 4) * tan (20 * PI / 180))).
Proof.
  cbv zeta. split.
  - assert (EM : @effective_module SketchKernel.convention Examples.tool_on
                 = 2)
      by (apply tool_on_module; reflexivity).
    rewrite EM.
    pose proof (@tooth_chain_sharp (SketchKernel.kernel 1) Examples.tool_on 2
                  (1 / 4) eq_refl eq_refl eq_refl) as Hchain.
    destruct (@rack_teeth_ends (SketchKernel.kernel 1) Examples.tool_on 2 _
                true Hchain eq_refl)
      as (a0 & a4 & e1 & e2 & teeth & G0 & G4 & _ & _ & HR & HE).
    unfold raw_tooth, tooth_lines, tooth_points, points_to_wire in G0, G4.
    cbn [map fst snd] in G0, G4.
    injection G0 as <-. injection G4 as <-.
    eexists. exists teeth. eexists.
    split; [exact Hchain|]. split; [exact HR|]. split.
    { unfold pitch_extent. rewrite HE. reflexivity. }
    cbn. pose proof PI_RGT_0. split; [field | lra].
  - assert (EM : @effective_module SketchKernel.convention Examples.open_rack
                 = 1)
      by (apply effective_module_plain; reflexivity).
    rewrite EM.
    pose proof (@tooth_chain_sharp (SketchKernel.kernel 1) Examples.open_rack
                  1 (1 / 4) eq_refl eq_refl eq_refl) as Hchain.
    destruct (@rack_teeth_ends (SketchKernel.kernel 1) Examples.open_rack 1 _
                false Hchain eq_refl)
      as (a0 & a4 & e1 & e2 & teeth & _ & _ & G1 & G2 & HR & HE).
    unfold raw_tooth, tooth_lines, tooth_points, points_to_wire in G1, G2.
    cbn [map fst snd] in G1, G2.
    injection G1 as <-. injection G2 as <-.
    eexists. exists teeth. do 2 eexists.
    split; [exact Hchain|]. split; [exact HR|]. split; [exact HE|].
    cbn. rewrite INR_IZR_INZ, positive_nat_Z. repeat split; field.
Qed.

(** C5, as the spec words it, fails for the single helix: the loft is asked
    for as a solid and not as a ruled one; the ruled flag is passed in the
    double-helix call only. *)
Lemma single_helix_loft_is_not_ruled :
  let K := SketchKernel.kernel 1 in
  let T := SketchKernel.convention in
  let obj := Examples.single_helix in
  exists pol,
    @rack_outline K obj 1 = Ok pol /\
    snd (@generate_gear_shape K T obj)
    = Ok (Body
            (SketchKernel.Lofted
               [pol;
                translate_wire (vec 0 (tan (45 * PI / 180) * 2) 2) pol]
               true false)) /\
    forall ws,
      snd (@generate_gear_shape K T obj)
      <> Ok (Body (SketchKernel.Lofted ws true true)).
Proof.
  cbv zeta. destruct herringbone_outline as (pol & Hpol).
  assert (HO : @rack_outline (SketchKernel.kernel 1) Examples.single_helix 1
               = Ok pol) by exact Hpol.
  assert (HG : snd (@generate_gear_shape (SketchKernel.kernel 1)
                      SketchKernel.convention Examples.single_helix)
               = Ok (@Body (SketchKernel.kernel 1)
                       (SketchKernel.Lofted
                          [pol;
                           translate_wire
                             (vec 0 (tan (45 * PI / 180) * 2) 2) pol]
                          true false))).
  { rewrite generate_gear_shape_unfold. cbn [snd].
    rewrite effective_module_plain by reflexivity.
    change (Obj.module Examples.single_helix) with 1. rewrite HO.
    cbn [bind Examples.single_helix Obj.height Obj.helix_angle
         Obj.double_helix].
    unfold make_solid.
    destruct (Req_dec_T 2 0); [lra|].
    destruct (Req_dec_T (45 * PI / 180) 0) as [E|E];
      [apply (proj1 (helix_radians_zero _)) in E; lra|].
    reflexivity. }
  exists pol. split; [exact HO|]. split; [exact HG|].
  intros ws HW. rewrite HG in HW. discriminate.
Qed.
